(** * terraform-provider-oras: a shallow embedding of the provider

    The development follows the Go sources of the provider:
    - [internal/provider/provider.go] (the [clients] object, plain-HTTP
      selection, the credential-store backed auth client),
    - the later revision of the same file (static [registry_auth]
      credentials, [providerSetToCredentials], [convertToHostname]),
    - the two data sources [oras_artifact] and [oras_artifact_file],
    - the pull-through policy of the Cache Target, whose package
      [internal/cache] is described by the specification only.

    Go strings are byte sequences and are modelled by [string]; byte slices
    are [list byte]; Go's [error] values are modelled by their message. *)

From Stdlib Require Import ZArith Lia List Bool Ascii String.
From Stdlib.Strings Require Import Byte.
From stdpp Require Import base option gmap strings list fin_maps.
Import ListNotations.

Local Open Scope string_scope.
Local Open Scope Z_scope.

(** ** Go values common to all files *)

(** An [error] is modelled by the text [err.Error()] yields. *)
Definition error := string.

(** A Go result pair [(v, err)]: either a value with a nil error, or an
    error. *)
Inductive Result (A : Type) : Type :=
| Ok (a : A)
| Err (e : error).
Arguments Ok {A} a.
Arguments Err {A} e.

Definition is_ok {A} (r : Result A) : bool :=
  match r with Ok _ => true | Err _ => false end.

(** ** Package [strings] and byte-indexing helpers of the Go runtime *)

Module GoStrings.

(** [len(s)] *)
Definition len (s : string) : Z := Z.of_nat (String.length s).

(** [bytealg.IndexByteString]: index of the first [c] in [s], or [-1]. *)
Fixpoint IndexByte (s : string) (c : ascii) : Z :=
  match s with
  | EmptyString => -1
  | String a s' =>
      if Ascii.eqb a c then 0
      else let r := IndexByte s' c in
           if r <? 0 then -1 else r + 1
  end.

(** [bytealg.LastIndexByteString]: index of the last [c] in [s], or [-1]. *)
Fixpoint LastIndexByte (s : string) (c : ascii) : Z :=
  match s with
  | EmptyString => -1
  | String a s' =>
      let r := LastIndexByte s' c in
      if 0 <=? r then r + 1
      else if Ascii.eqb a c then 0 else -1
  end.

(** The slice expression [s[lo:hi]] (used only with indices in range). *)
Definition slice (s : string) (lo hi : Z) : string :=
  substring (Z.to_nat lo) (Z.to_nat (hi - lo)) s.

(** The slice expression [s[lo:]]. *)
Definition slice_from (s : string) (lo : Z) : string :=
  slice s lo (len s).

(** The index expression [s[0]] for a non-empty string; the zero byte
    stands for the run-time panic on an empty string, which no caller
    below can reach. *)
Definition head_byte (s : string) : ascii :=
  match s with
  | EmptyString => Ascii.zero
  | String a _ => a
  end.

(** [strings.HasPrefix] *)
Definition HasPrefix (s p : string) : bool := String.prefix p s.

(** [strings.TrimPrefix] *)
Definition TrimPrefix (s p : string) : string :=
  if HasPrefix s p then slice_from s (len p) else s.

(** [strings.SplitN(s, "/", 2)[0]]: the text before the first separator
    byte, or the whole string when there is none.  [SplitN] with a
    non-empty separator always returns at least one part. *)
Definition SplitN2_first (s : string) (sep : ascii) : string :=
  let i := IndexByte s sep in
  if i <? 0 then s else slice s 0 i.

End GoStrings.

(** ** Package [net]: [SplitHostPort] *)

Module GoNet.
Import GoStrings.

Definition missingPort : error := "missing port in address".
Definition tooManyColons : error := "too many colons in address".

(** [net.SplitHostPort(hostport)] returns [(host, port, err)]; on an
    error both strings are empty.  The body follows the library
    function statement by statement. *)
Definition SplitHostPort (hostport : string) : string * string * option error :=
  let addrErr (why : error) := ("", "", Some why) in
  (* The port starts after the last colon. *)
  let i := LastIndexByte hostport ":" in
  if i <? 0 then addrErr missingPort
  else
    let bracketed : Result (string * Z * Z) :=
      if Ascii.eqb (head_byte hostport) "[" then
        (* Expect the first ']' just before the last ':'. *)
        let end_ := IndexByte hostport "]" in
        if end_ <? 0 then Err "missing ']' in address"
        else if end_ + 1 =? len hostport then Err missingPort
        else if end_ + 1 =? i then Ok (slice hostport 1 end_, 1, end_ + 1)
        else if Ascii.eqb (head_byte (slice_from hostport (end_ + 1))) ":"
             then Err tooManyColons
             else Err missingPort
      else
        let host := slice hostport 0 i in
        if 0 <=? IndexByte host ":" then Err tooManyColons
        else Ok (host, 0, 0)
    in
    match bracketed with
    | Err why => addrErr why
    | Ok (host, j, k) =>
        if 0 <=? IndexByte (slice_from hostport j) "[" then
          addrErr "unexpected '[' in address"
        else if 0 <=? IndexByte (slice_from hostport k) "]" then
          addrErr "unexpected ']' in address"
        else (host, slice_from hostport (i + 1), None)
    end.

End GoNet.

(** The host part of a registry string [host] or [host:port], the notion
    the statement about plain HTTP is phrased in: without a colon the
    whole string; otherwise the text up to the first [']'] without its
    leading ['['], or else the text before the first colon (this is how
    [net/url] strips a port). *)
Definition host_part (registry : string) : string :=
  let colon := GoStrings.IndexByte registry ":" in
  if colon <? 0 then registry
  else
    let i := GoStrings.IndexByte registry "]" in
    if negb (i <? 0) then GoStrings.TrimPrefix (GoStrings.slice registry 0 i) "["
    else GoStrings.slice registry 0 colon.

(** ** Library types of oras-go, net/http and the host system *)

(** [time.Duration] counts nanoseconds in an [int64]. *)
Module GoTime.
Definition Duration := Z.
Definition Nanosecond : Duration := 1.
Definition Microsecond : Duration := 1000 * Nanosecond.
Definition Millisecond : Duration := 1000 * Microsecond.
Definition Second : Duration := 1000 * Millisecond.
Definition int64_max : Z := 2 ^ 63 - 1.
End GoTime.

(** [digest.Digest] is a string type; [Digest.String()] is the conversion. *)
Definition Digest := string.
Definition Digest_String (d : Digest) : string := d.

(** [ocispec.Descriptor] *)
Record Descriptor := {
  MediaType : string;
  Digest_ : Digest;
  Size : Z;
}.

(** [registry.Reference] *)
Record Reference := {
  Registry : string;
  Repository_ : string;
  Reference_ : string;
}.

(** [auth.Credential]; [auth.EmptyCredential] is its zero value. *)
Record Credential := {
  Username : string;
  Password : string;
  RefreshToken : string;
  AccessToken : string;
}.

Definition EmptyCredential : Credential :=
  {| Username := ""; Password := ""; RefreshToken := ""; AccessToken := "" |}.

(** [net.Dialer] and [http.Transport], with the fields the provider sets. *)
Record Dialer := {
  Timeout : GoTime.Duration;
  KeepAlive : GoTime.Duration;
}.

Record Transport := {
  ProxyFromEnvironment : bool;
  DialContext : Dialer;
  ForceAttemptHTTP2 : bool;
  MaxIdleConns : Z;
  IdleConnTimeout : GoTime.Duration;
  TLSHandshakeTimeout : GoTime.Duration;
  ExpectContinueTimeout : GoTime.Duration;
}.

(** [auth.Client]: the HTTP client with its transport, the [User-Agent]
    header set by [SetUserAgent], and the credential callback. *)
Record AuthClient := {
  ClientTransport : Transport;
  UserAgent : string;
  ClientCredential : string -> Result Credential;
}.

(** [remote.Repository] *)
Record Repository := {
  RepoReference : Reference;
  PlainHTTP : bool;
  Client : option AuthClient;
}.

(** [oci.Store]: the handle of a content store opened on a directory. *)
Record OciStore := { store_root : string }.

(** [oras.ReadOnlyTarget] has two implementations in the provider: the
    remote repository itself and the cache wrapper built by [cache.New]. *)
Inductive Target : Type :=
| RemoteTarget (repo : Repository)
| CacheTarget (src : Target) (cache : OciStore).

(** Modelled from the spec: [cache.New] of the package [internal/cache],
    which is not among the sources, composes a Remote Target and a Local
    Content Store into a Cache Target with the same read contract. *)
Definition cache_New (src : Target) (cache : OciStore) : Target :=
  CacheTarget src cache.

(** The file system as the provider sees it: regular files by path and
    the set of existing directories. *)
Record FS := {
  files : gmap string (list byte);
  dirs : gset string;
}.

(** [file.Store]: a file store writing below its working directory. *)
Record FileStore := { workingDir : string }.

(** What the provider asks of its surroundings: the process environment,
    the registry libraries and the operating system.  Every field is a
    library or system call of the sources; the provider's own code is
    defined over an arbitrary [Host]. *)
Record Host := {
  (** [remote.NewRepository]: parsing of the reference string. *)
  remote_ParseReference : string -> Result Reference;
  (** [os.Getenv] *)
  os_Getenv : string -> string;
  (** [oci.New]: [None] when the store directory can be opened. *)
  oci_open : string -> option error;
  (** [credential.NewStore] and the store's [Credential] method. *)
  credential_NewStore : Result (string -> Result Credential);
  (** [os.MkdirTemp]: the directory name the system picks for a pattern. *)
  os_TempName : FS -> string -> Result string;
  (** [file.New] *)
  file_New : string -> Result FileStore;
  (** [oras.Copy] from a target into a file store. *)
  oras_Copy : Target -> string -> FileStore -> string -> FS -> Result Descriptor * FS;
  (** [filepath.Join] of a directory and a name. *)
  filepath_Join : string -> string -> string;
  (** [sha1.Sum] *)
  sha1_Sum : list byte -> list byte;
}.

(** [remote.NewRepository(reference)]: a repository for the parsed
    reference, with the library defaults. *)
Definition remote_NewRepository (h : Host) (reference : string) : Result Repository :=
  match remote_ParseReference h reference with
  | Err e => Err e
  | Ok ref => Ok {| RepoReference := ref; PlainHTTP := false; Client := None |}
  end.

(** [oci.New(root)] *)
Definition oci_New (h : Host) (root : string) : Result OciStore :=
  match oci_open h root with
  | Some e => Err e
  | None => Ok {| store_root := root |}
  end.

(** ** [internal/provider/provider.go] *)

Module Provider.
Import GoStrings GoTime.

(** [type clients struct { version string }] *)
Record clients := { version : string }.

(** [isPlainHttp] *)
Definition isPlainHttp (c : clients) (registry : string) : bool :=
  let '(host, _, _) := GoNet.SplitHostPort registry in
  if String.eqb host "localhost" || String.eqb registry "localhost"
  then true
  else false.

(** The transport literal of [authClient]. *)
Definition transport : Transport := {|
  ProxyFromEnvironment := true;
  DialContext := {| Timeout := 30 * Second; KeepAlive := 30 * Second |};
  ForceAttemptHTTP2 := true;
  MaxIdleConns := 100;
  IdleConnTimeout := 90 * Second;
  TLSHandshakeTimeout := 10 * Second;
  ExpectContinueTimeout := 1 * Second;
|}.

(** [authClient].  The leading [if err != nil] tests the named result,
    which is still nil, so it never fires. *)
Definition authClient (h : Host) (c : clients) (registry : string)
  : Result AuthClient :=
  match credential_NewStore h with
  | Err e => Err e
  | Ok store =>
      (* For a registry from 'docker.io' the hostname is
         "registry-1.docker.io"; the credential is kept under
         "https://index.docker.io/v1/". *)
      let credential :=
        if String.eqb registry "docker.io" then
          fun hostname : string =>
            let hostname :=
              if String.eqb hostname "registry-1.docker.io"
              then "https://index.docker.io/v1/"
              else hostname in
            store hostname
        else store in
      Ok {| ClientTransport := transport;
            UserAgent := "terraform-provider-oras/" +:+ version c;
            ClientCredential := credential |}
  end.

(** [NewRepository] *)
Definition NewRepository (h : Host) (c : clients) (reference : string)
  : Result Repository :=
  match remote_NewRepository h reference with
  | Err e => Err e
  | Ok repo =>
      let hostname := Registry (RepoReference repo) in
      let repo := {| RepoReference := RepoReference repo;
                     PlainHTTP := isPlainHttp c hostname;
                     Client := Client repo |} in
      match authClient h c hostname with
      | Err e => Err e
      | Ok client =>
          Ok {| RepoReference := RepoReference repo;
                PlainHTTP := PlainHTTP repo;
                Client := Some client |}
      end
  end.

(** [CachedTarget] *)
Definition CachedTarget (h : Host) (c : clients) (src : Target) : Result Target :=
  let root := os_Getenv h "ORAS_CACHE" in
  if negb (String.eqb root "") then
    match oci_New h root with
    | Err e => Err e
    | Ok ociStore => Ok (cache_New src ociStore)
    end
  else Ok src.

End Provider.

(** ** The Terraform plugin SDK: diagnostics and resource data *)

Inductive Severity := SevError | SevWarning.

Record Diagnostic := {
  DiagSeverity : Severity;
  Summary : string;
}.

(** [diag.Diagnostics]; the nil slice is the success value. *)
Definition Diagnostics := list Diagnostic.

(** [diag.FromErr(err)] for a non-nil error: one error diagnostic whose
    summary is the error's own text. *)
Definition diag_FromErr (err : error) : Diagnostics :=
  [ {| DiagSeverity := SevError; Summary := err |} ].

(** [diag.Errorf]: one error diagnostic with the formatted text. *)
Definition diag_Errorf (msg : string) : Diagnostics :=
  [ {| DiagSeverity := SevError; Summary := msg |} ].

(** A value of type [interface{}] as the SDK hands it over: the string
    case is the only one the provider inspects. *)
Inductive any : Type :=
| AnyString (s : string)
| AnyOther.

(** [schema.ResourceData] of a data source: string attributes and the id. *)
Record ResourceData := {
  attrs : gmap string string;
  Id : string;
}.

(** [d.Get(key).(string)]: unset attributes read as the zero value. *)
Definition rd_Get (d : ResourceData) (key : string) : string :=
  default "" (attrs d !! key).

(** [d.Set(key, value)] for a string attribute. *)
Definition rd_Set (d : ResourceData) (key value : string) : ResourceData :=
  {| attrs := <[key := value]> (attrs d); Id := Id d |}.

(** [d.SetId(id)] *)
Definition rd_SetId (d : ResourceData) (id : string) : ResourceData :=
  {| attrs := attrs d; Id := id |}.

(** ** The later revision of [provider.go]: static registry credentials *)

(** The docker configuration library and [go-homedir], as used by
    [providerSetToCredentials].  A reader is modelled by the text that is
    still unread; loading consumes from it and updates the
    configuration object in place. *)
Record ConfigLib := {
  ConfigFile : Type;
  configfile_New : string -> ConfigFile;
  LoadFromReader : ConfigFile -> string -> option error * ConfigFile * string;
  LegacyLoadFromReader : ConfigFile -> string -> option error * ConfigFile * string;
  (** [GetAuthConfig] returns [types.AuthConfig]; the provider reads its
      [Username] and [Password]. *)
  GetAuthConfig : ConfigFile -> string -> Result (string * string);
  homedir_Expand : string -> Result string;
}.

(** [os.Open(path)] followed by reading: the file's text, or the error of
    a missing file. *)
Definition os_Open (fs : FS) (path : string) : Result string :=
  match files fs !! path with
  | Some content => Ok (string_of_list_byte content)
  | None => Err ("open " +:+ path +:+ ": no such file or directory")
  end.

Module Provider2.
Import GoStrings GoTime.

(** [type clients struct { version string; client *auth.Client }] *)
Record clients := {
  version : string;
  client : AuthClient;
}.

(** [NewRepository] *)
Definition NewRepository (h : Host) (c : clients) (reference : string)
  : Result Repository :=
  match remote_NewRepository h reference with
  | Err e => Err e
  | Ok repo =>
      Ok {| RepoReference := RepoReference repo;
            PlainHTTP := PlainHTTP repo;
            Client := Some (client c) |}
  end.

(** [CachedTarget] *)
Definition CachedTarget (h : Host) (c : clients) (src : Target) : Result Target :=
  let root := os_Getenv h "ORAS_CACHE" in
  if negb (String.eqb root "") then
    match oci_New h root with
    | Err e => Err e
    | Ok ociStore => Ok (cache_New src ociStore)
    end
  else Ok src.

(** [convertToHostname] *)
Definition convertToHostname (url : string) : string :=
  let stripped :=
    if HasPrefix url "http://" then TrimPrefix url "http://"
    else if HasPrefix url "https://" then TrimPrefix url "https://"
    else url in
  SplitN2_first stripped "/".

(** The transport literal of [authClient]. *)
Definition transport : Transport := {|
  ProxyFromEnvironment := true;
  DialContext := {| Timeout := 30 * Second; KeepAlive := 30 * Second |};
  ForceAttemptHTTP2 := true;
  MaxIdleConns := 100;
  IdleConnTimeout := 90 * Second;
  TLSHandshakeTimeout := 10 * Second;
  ExpectContinueTimeout := 1 * Second;
|}.

(** [authClient(version, creds)].  As in the first revision the leading
    test of the named result [err] never fires, so the function always
    returns a client. *)
Definition authClient (version : string) (creds : gmap string Credential)
  : Result AuthClient :=
  Ok {| ClientTransport := transport;
        UserAgent := "terraform-provider-oras/" +:+ version;
        ClientCredential := fun s =>
          let hostname := convertToHostname s in
          match creds !! hostname with
          | Some cred => Ok cred
          | None => Ok EmptyCredential
          end |}.

(** Outcome of code that can also panic (a failed type assertion). *)
Inductive Run (A : Type) : Type :=
| Done (a : A)
| Fail (e : error)
| Panic.
Arguments Done {A} a.
Arguments Fail {A} e.
Arguments Panic {A}.

#[global] Instance Run_bind : MBind Run := fun A B k m =>
  match m with
  | Done a => k a
  | Fail e => Fail e
  | Panic => Panic
  end.

(** [v.(string)]: panics unless [v] holds a string. *)
Definition assertString (v : option any) : Run string :=
  match v with
  | Some (AnyString s) => Done s
  | _ => Panic
  end.

(** [s, ok := v.(string)] *)
Definition assertStringOk (v : option any) : string * bool :=
  match v with
  | Some (AnyString s) => (s, true)
  | _ => ("", false)
  end.

Section WithLibraries.
Context (lib : ConfigLib).

(** [loadConfigFile]: the legacy loader runs on what the first loader
    left of the reader, and on the object the first loader touched. *)
Definition loadConfigFile (configData : string) : Result (ConfigFile lib) :=
  let configFile := configfile_New lib "" in
  match LoadFromReader lib configFile configData with
  | (None, configFile, _) => Ok configFile
  | (Some _, configFile, rest) =>
      match LegacyLoadFromReader lib configFile rest with
      | (None, configFile, _) => Ok configFile
      | (Some err, _, _) => Err err
      end
  end.

Definition withAuth (cred : Credential) (authFileConfig : string * string)
  : Credential :=
  {| Username := fst authFileConfig;
     Password := snd authFileConfig;
     RefreshToken := RefreshToken cred;
     AccessToken := AccessToken cred |}.

(** The [config_file_content] branch of the loop body. *)
Definition credentialFromContent (hostname configFileContent : string)
  : Run Credential :=
  match loadConfigFile configFileContent with
  | Err err =>
      Fail ("error parsing docker registry config json: " +:+ err)
  | Ok c =>
      match GetAuthConfig lib c hostname with
      | Err _ =>
          Fail ("couldn't find registry config for '" +:+ hostname
                +:+ "' in file content")
      | Ok authFileConfig => Done (withAuth EmptyCredential authFileConfig)
      end
  end.

(** The [config_file] branch of the loop body. *)
Definition credentialFromFile (fs : FS) (hostname configFile : string)
  : Run Credential :=
  match homedir_Expand lib configFile with
  | Err err => Fail err
  | Ok filePath =>
      match os_Open fs filePath with
      | Err err =>
          Fail ("could not open config file from filePath: " +:+ filePath
                +:+ ". Error: " +:+ err)
      | Ok r =>
          match loadConfigFile r with
          | Err err =>
              Fail ("could not read and load config file: " +:+ err)
          | Ok c =>
              match GetAuthConfig lib c hostname with
              | Err err =>
                  Fail ("could not get auth config (the credentialhelper did not work or was not found): " +:+ err)
              | Ok authFileConfig =>
                  Done (withAuth EmptyCredential authFileConfig)
              end
          end
      end
  end.

(** One iteration of the loop of [providerSetToCredentials]: the
    hostname and the credential stored under it. *)
Definition registryAuthCredential (fs : FS) (authMap : gmap string any)
  : Run (string * Credential) :=
  address ← assertString (authMap !! "address");
  let hostname := convertToHostname address in
  let '(username, ok) := assertStringOk (authMap !! "username") in
  if ok && negb (String.eqb username "") then
    password ← assertString (authMap !! "password");
    Done (hostname, {| Username := username; Password := password;
                       RefreshToken := ""; AccessToken := "" |})
  else
    let '(configFileContent, ok) :=
      assertStringOk (authMap !! "config_file_content") in
    if ok && negb (String.eqb configFileContent "") then
      cred ← credentialFromContent hostname configFileContent;
      Done (hostname, cred)
    else
      let '(configFile, ok) := assertStringOk (authMap !! "config_file") in
      if ok && negb (String.eqb configFile "") then
        cred ← credentialFromFile fs hostname configFile;
        Done (hostname, cred)
      else Done (hostname, EmptyCredential).

(** The loop of [providerSetToCredentials] over [authList.List()],
    with the map built so far. *)
Fixpoint providerSetToCredentials_loop (fs : FS)
    (authList : list (gmap string any))
    (credentials : gmap string Credential)
  : Run (gmap string Credential) :=
  match authList with
  | [] => Done credentials
  | registryAuth :: rest =>
      hc ← registryAuthCredential fs registryAuth;
      providerSetToCredentials_loop fs rest (<[hc.1 := hc.2]> credentials)
  end.

(** [providerSetToCredentials] *)
Definition providerSetToCredentials (fs : FS)
    (authList : list (gmap string any))
  : Run (gmap string Credential) :=
  providerSetToCredentials_loop fs authList ∅.

(** [configure(version)]: [d.GetOk("registry_auth")] reports a set
    that is present and non-empty. *)
Definition configure (version : string) (fs : FS)
    (registry_auth : list (gmap string any))
  : Run (Result clients) :=
  creds ←
    match registry_auth with
    | [] => Done (Ok ∅)
    | _ =>
        match providerSetToCredentials fs registry_auth with
        | Done configureCreds => Done (Ok configureCreds)
        | Fail err =>
            Done (Err ("Error loading registry auth config: " +:+ err))
        | Panic => Panic
        end
    end;
  match creds with
  | Err msg => Done (Err msg)
  | Ok creds =>
      match authClient version creds with
      | Err err => Done (Err ("Error creating client: " +:+ err))
      | Ok client => Done (Ok {| version := version; client := client |})
      end
  end.

End WithLibraries.

End Provider2.

(** ** Packages [encoding/base64] and [encoding/hex] *)

(** [uint(b)] of a byte and the truncating conversion [byte(v)]. *)
Definition byte_to_Z (b : byte) : Z := Z.of_N (Byte.to_N b).

Definition byte_of_Z (v : Z) : byte :=
  match Byte.of_N (Z.to_N (v mod 256)) with
  | Some b => b
  | None => x00
  end.

(** [string(content)] for a byte slice. *)
Definition string_of_bytes (content : list byte) : string :=
  string_of_list_byte content.

(** [s[i]] of a table whose every index used is in range. *)
Definition table_at (table : string) (i : Z) : ascii :=
  match String.get (Z.to_nat i) table with
  | Some c => c
  | None => Ascii.zero
  end.

Module Base64.
Import GoStrings.

(** The alphabet of [base64.StdEncoding] and its padding character. *)
Definition encodeStd : string :=
  "ABCDEFGHIJKLMNOPQRSTUVWXYZabcdefghijklmnopqrstuvwxyz0123456789+/".
Definition StdPadding : ascii := "="%char.

(** [enc.encode[v]] *)
Definition encode (v : Z) : ascii := table_at encodeStd v.

(** [enc.decodeMap[in]]: the table is filled with [0xff] and then with
    the index of every alphabet character. *)
Definition decodeMap (c : ascii) : Z :=
  let i := IndexByte encodeStd c in
  if i <? 0 then 0xff else i.

(** The 24-bit value [Encode] forms of up to three source bytes. *)
Definition pack3 (b0 b1 b2 : Z) : Z :=
  Z.lor (Z.lor (Z.shiftl b0 16) (Z.shiftl b1 8)) b2.

(** [val>>k&0x3F] *)
Definition sextet (val k : Z) : Z := Z.land (Z.shiftr val k) 0x3F.

(** [Encoding.EncodeToString] with standard padding: whole groups of
    three bytes first, then the remaining one or two bytes. *)
Fixpoint EncodeToString (src : list byte) : string :=
  match src with
  | [] => ""
  | b0 :: b1 :: b2 :: rest =>
      let val := pack3 (byte_to_Z b0) (byte_to_Z b1) (byte_to_Z b2) in
      String (encode (sextet val 18))
        (String (encode (sextet val 12))
           (String (encode (sextet val 6))
              (String (encode (sextet val 0)) (EncodeToString rest))))
  | [b0; b1] =>
      let val := Z.lor (Z.shiftl (byte_to_Z b0) 16) (Z.shiftl (byte_to_Z b1) 8) in
      String (encode (sextet val 18))
        (String (encode (sextet val 12))
           (String (encode (sextet val 6)) (String StdPadding "")))
  | [b0] =>
      let val := Z.shiftl (byte_to_Z b0) 16 in
      String (encode (sextet val 18))
        (String (encode (sextet val 12))
           (String StdPadding (String StdPadding "")))
  end.

(** [CorruptInputError]; the byte offset it reports is not modelled. *)
Definition CorruptInputError : error := "illegal base64 data".

(** The value [decodeQuantum] forms of four decoded characters. *)
Definition pack4 (d0 d1 d2 d3 : Z) : Z :=
  Z.lor (Z.lor (Z.lor (Z.shiftl d0 18) (Z.shiftl d1 12)) (Z.shiftl d2 6)) d3.

Definition is_newline (c : ascii) : bool :=
  Ascii.eqb c "010"%char || Ascii.eqb c "013"%char.

Definition in_alphabet (c : ascii) : bool :=
  negb (decodeMap c =? 0xff).

(** The quanta of [Decode] over an input from which the ignored
    characters (carriage return, line feed) have been dropped: four
    alphabet characters give three bytes; padding is accepted only in
    the last quantum, as [xx==] or [xxx=]. *)
Fixpoint decodeQuanta (src : list ascii) : Result (list byte) :=
  match src with
  | [] => Ok []
  | c0 :: c1 :: c2 :: c3 :: rest =>
      if in_alphabet c0 && in_alphabet c1 then
        if in_alphabet c2 then
          if in_alphabet c3 then
            let val := pack4 (decodeMap c0) (decodeMap c1)
                             (decodeMap c2) (decodeMap c3) in
            match decodeQuanta rest with
            | Err e => Err e
            | Ok out =>
                Ok (byte_of_Z (Z.shiftr val 16) :: byte_of_Z (Z.shiftr val 8)
                    :: byte_of_Z (Z.shiftr val 0) :: out)
            end
          else if Ascii.eqb c3 StdPadding then
            match rest with
            | [] =>
                let val := pack4 (decodeMap c0) (decodeMap c1) (decodeMap c2) 0 in
                Ok [byte_of_Z (Z.shiftr val 16); byte_of_Z (Z.shiftr val 8)]
            | _ => Err CorruptInputError
            end
          else Err CorruptInputError
        else if Ascii.eqb c2 StdPadding && Ascii.eqb c3 StdPadding then
          match rest with
          | [] =>
              let val := pack4 (decodeMap c0) (decodeMap c1) 0 0 in
              Ok [byte_of_Z (Z.shiftr val 16)]
          | _ => Err CorruptInputError
          end
        else Err CorruptInputError
      else Err CorruptInputError
  | _ => Err CorruptInputError
  end.

(** [Encoding.DecodeString] of [base64.StdEncoding]. *)
Definition DecodeString (s : string) : Result (list byte) :=
  decodeQuanta (filter (fun c => is_newline c = false) (list_ascii_of_string s)).

End Base64.

Module Hex.
Definition hextable : string := "0123456789abcdef".

(** [hex.EncodeToString] *)
Fixpoint EncodeToString (src : list byte) : string :=
  match src with
  | [] => ""
  | v :: rest =>
      String (table_at hextable (Z.shiftr (byte_to_Z v) 4))
        (String (table_at hextable (Z.land (byte_to_Z v) 0x0f))
           (EncodeToString rest))
  end.
End Hex.

(** ** The data sources [oras_artifact_file] and [oras_artifact] *)

(** Both read functions receive the provider's [*clients] as [meta] and
    use its two methods; either revision of [provider.go] supplies them. *)
Class Clients (C : Type) := {
  NewRepository : Host -> C -> string -> Result Repository;
  CachedTarget : Host -> C -> Target -> Result Target;
}.

#[global] Instance Clients_Provider : Clients Provider.clients := {|
  NewRepository := Provider.NewRepository;
  CachedTarget := Provider.CachedTarget;
|}.

#[global] Instance Clients_Provider2 : Clients Provider2.clients := {|
  NewRepository := Provider2.NewRepository;
  CachedTarget := Provider2.CachedTarget;
|}.

(** The system and library calls a read performs on the file system, in
    the order they happen. *)
Inductive Call : Type :=
| CallMkdirTemp (created : string)
| CallCopy (src : Target) (srcRef : string) (dst : FileStore) (dstRef : string)
| CallReadFile (path : string)
| CallRemoveAll (path : string).

(** The state a read runs in: the file system and the calls made so far. *)
Record World := {
  fs : FS;
  calls : list Call;
}.

Definition log (c : Call) (w : World) : World :=
  {| fs := fs w; calls := calls w ++ [c] |}.

Definition M (A : Type) : Type := World -> A * World.

(** [path] is [root] itself or lies below it. *)
Definition under (root path : string) : bool :=
  String.eqb path root || String.prefix (root +:+ "/") path.

(** [os.MkdirTemp(dir, pattern)]: the system proposes a name; creating an
    existing directory fails, otherwise the directory exists afterwards. *)
Definition os_MkdirTemp (h : Host) (dir pattern : string) : M (Result string) :=
  fun w =>
    match os_TempName h (fs w) pattern with
    | Err e => (Err e, w)
    | Ok name =>
        if decide (name ∈ dirs (fs w)) then
          (Err ("mkdir " +:+ name +:+ ": file exists"), w)
        else
          (Ok name,
           log (CallMkdirTemp name)
             {| fs := {| files := files (fs w);
                         dirs := {[ name ]} ∪ dirs (fs w) |};
                calls := calls w |})
    end.

(** [os.RemoveAll(path)]: [path] and everything below it is gone. *)
Definition os_RemoveAll (path : string) (w : World) : World :=
  log (CallRemoveAll path)
    {| fs := {| files := filter (fun kv => under path kv.1 = false) (files (fs w));
                dirs := filter (fun p => under path p = false) (dirs (fs w)) |};
       calls := calls w |}.

(** [os.ReadFile(path)] *)
Definition os_ReadFile (path : string) : M (Result (list byte)) :=
  fun w =>
    (match files (fs w) !! path with
     | Some content => Ok content
     | None => Err ("open " +:+ path +:+ ": no such file or directory")
     end,
     log (CallReadFile path) w).

(** [oras.Copy(ctx, src, srcRef, dst, dstRef, oras.DefaultCopyOptions)] *)
Definition Copy (h : Host) (src : Target) (srcRef : string)
    (dst : FileStore) (dstRef : string) : M (Result Descriptor) :=
  fun w =>
    let '(r, fs') := oras_Copy h src srcRef dst dstRef (fs w) in
    (r, log (CallCopy src srcRef dst dstRef) {| fs := fs'; calls := calls w |}).

(** [defer cleanup] in front of [body]: the cleanup runs when the body
    returns, whatever it returns. *)
Definition defer {A} (cleanup : World -> World) (body : M A) : M A :=
  fun w => let '(a, w') := body w in (a, cleanup w').

Section DataSources.
Context {C : Type} `{Clients C}.
Context (h : Host) (opts : C).

(** [dataSourceOrasArtifactFileRead] *)
Definition dataSourceOrasArtifactFileRead (d : ResourceData)
  : M (Diagnostics * ResourceData) :=
  fun w =>
    let reference := rd_Get d "name" in
    let filename := rd_Get d "filename" in
    match NewRepository h opts reference with
    | Err err => ((diag_FromErr err, d), w)
    | Ok repo =>
    match CachedTarget h opts (RemoteTarget repo) with
    | Err err => ((diag_FromErr err, d), w)
    | Ok src =>
    match os_MkdirTemp h "" "terraform-oras-provider-" w with
    | (Err err, w) => ((diag_FromErr err, d), w)
    | (Ok temp, w) =>
      defer (os_RemoveAll temp) (fun w =>
        match file_New h temp with
        | Err err => ((diag_FromErr err, d), w)
        | Ok dst =>
        let ref := Reference_ (RepoReference repo) in
        match Copy h src ref dst ref w with
        | (Err err, w) => ((diag_FromErr err, d), w)
        | (Ok _, w) =>
        match os_ReadFile (filepath_Join h temp filename) w with
        | (Err err, w) => ((diag_FromErr err, d), w)
        | (Ok content, w) =>
            (* Set the content both as UTF-8 string, and as base64
               encoded string *)
            let d := rd_Set d "content" (string_of_bytes content) in
            let d := rd_Set d "content_base64" (Base64.EncodeToString content) in
            (* Use the hexadecimal encoding of the checksum of the file
               content as ID *)
            let checksum := sha1_Sum h content in
            let d := rd_SetId d (Hex.EncodeToString checksum) in
            (([], d), w)
        end end end) w
    end end end.

(** [dataSourceOrasArtifactRead] *)
Definition dataSourceOrasArtifactRead (d : ResourceData)
  : M (Diagnostics * ResourceData) :=
  fun w =>
    let reference := rd_Get d "name" in
    let outputPath := rd_Get d "output_path" in
    match NewRepository h opts reference with
    | Err err => ((diag_FromErr err, d), w)
    | Ok repo =>
    match CachedTarget h opts (RemoteTarget repo) with
    | Err err => ((diag_FromErr err, d), w)
    | Ok src =>
    match file_New h outputPath with
    | Err err => ((diag_FromErr err, d), w)
    | Ok dst =>
    let ref := Reference_ (RepoReference repo) in
    match Copy h src ref dst ref w with
    | (Err err, w) => ((diag_FromErr err, d), w)
    | (Ok desc, w) =>
        let d := rd_SetId d (Digest_String (Digest_ desc)) in
        (([], d), w)
    end end end end.

End DataSources.

(** ** The Cache Target *)

(** The package [internal/cache] (the [Fetch] method of the target that
    [cache.New] returns) is not among the sources.  The definitions of
    this module follow the specification's sections on the digest model
    ([verify]), the Local Content Store ([exists], [fetch], [store]) and
    the pull-through policy of the Cache Target. *)
Module Cache.

Definition NotFoundError : error := "not found".
Definition CorruptContentError : error := "corrupt content".

(** The Local Content Store (entries by digest) together with the
    number of calls the Remote Target has received. *)
Record State := {
  local : gmap Digest (list byte);
  remote_calls : nat;
}.

Section Policy.
(** The digest function of the content model. *)
Context (digest_of : list byte -> Digest).
(** The Remote Target: its answer to a fetch may depend on how many
    calls it has served. *)
Context (remote_fetch : nat -> Descriptor -> Result (list byte)).
(** Local I/O failure of a write (disk full, permission denied). *)
Context (store_io : gmap Digest (list byte) -> Descriptor -> option error).

(** Modelled from the spec: [verify(descriptor, bytes)] of the digest
    model recomputes the digest over the bytes and compares it with the
    descriptor's. *)
Definition verify (d : Descriptor) (content : list byte) : bool :=
  String.eqb (digest_of content) (Digest_ d).

(** Modelled from the spec: [exists(descriptor)] of the Local Content
    Store is true iff a complete entry for the digest is present. *)
Definition local_exists (d : Descriptor) (s : State) : bool :=
  bool_decide (is_Some (local s !! Digest_ d)).

(** Modelled from the spec: [fetch(descriptor)] of the Local Content
    Store gives the bytes of the entry, or a not-found error. *)
Definition local_fetch (d : Descriptor) (s : State) : Result (list byte) :=
  match local s !! Digest_ d with
  | Some content => Ok content
  | None => Err NotFoundError
  end.

(** Modelled from the spec: [store(descriptor, bytes)] of the Local
    Content Store writes the bytes under the digest; a local I/O failure
    is reported and leaves no entry visible. *)
Definition local_store (d : Descriptor) (content : list byte) (s : State)
  : option error * State :=
  match store_io (local s) d with
  | Some e => (Some e, s)
  | None =>
      (None, {| local := <[Digest_ d := content]> (local s);
                remote_calls := remote_calls s |})
  end.

(** Modelled from the spec: [fetch(descriptor)] of the Remote Target,
    the collaborator whose calls are counted. *)
Definition remote_Fetch (d : Descriptor) (s : State)
  : Result (list byte) * State :=
  (remote_fetch (remote_calls s) d,
   {| local := local s; remote_calls := S (remote_calls s) |}).

(** Modelled from the spec: [fetch(descriptor)] of the Cache Target
    ([internal/cache] is not among the sources).  A stored entry is
    returned without contacting the remote; otherwise the bytes fetched
    from the Remote Target are verified and, only when they verify,
    stored before they are returned; a failed verification is a
    corrupt-content error and stores nothing; errors of the Remote Target
    and of the store are passed on. *)
Definition Fetch (d : Descriptor) (s : State) : Result (list byte) * State :=
  if local_exists d s then (local_fetch d s, s)
  else
    match remote_Fetch d s with
    | (Err e, s) => (Err e, s)
    | (Ok content, s) =>
        if verify d content then
          match local_store d content s with
          | (Some e, s) => (Err e, s)
          | (None, s) => (Ok content, s)
          end
        else (Err CorruptContentError, s)
    end.

End Policy.
End Cache.

(** ** Concrete hosts on which the model is run *)

Module Demo.

Definition reference : Reference :=
  {| Registry := "ghcr.io"; Repository_ := "acme/app"; Reference_ := "v1" |}.

Definition descriptor : Descriptor :=
  {| MediaType := "application/vnd.oci.image.manifest.v1+json";
     Digest_ := "sha256:aaa";
     Size := 2 |}.

(** The bytes of ["hi"]. *)
Definition hello : list byte := [x68; x69].

(** A credential store that answers with the key it was asked for. *)
Definition echo_store (hostname : string) : Result Credential :=
  Ok {| Username := hostname; Password := "secret";
        RefreshToken := ""; AccessToken := "" |}.

(** A registry that knows one artifact holding the file [hello.txt];
    caching is switched off. *)
Definition host : Host := {|
  remote_ParseReference := fun s =>
    if String.eqb s "ghcr.io/acme/app:v1" then Ok reference
    else Err "invalid reference";
  os_Getenv := fun _ => "";
  oci_open := fun _ => None;
  credential_NewStore := Ok echo_store;
  os_TempName := fun _ pattern => Ok ("/tmp/" +:+ pattern +:+ "1");
  file_New := fun dir => Ok {| workingDir := dir |};
  oras_Copy := fun _ _ dst _ fs =>
    (Ok descriptor,
     {| files := <[workingDir dst +:+ "/hello.txt" := hello]> (files fs);
        dirs := dirs fs |});
  filepath_Join := fun dir name => dir +:+ "/" +:+ name;
  sha1_Sum := fun _ => [x00];
|}.

(** The same host with the cache switched on at [/var/cache/oras]. *)
Definition host_cached : Host := {|
  remote_ParseReference := remote_ParseReference host;
  os_Getenv := fun name =>
    if String.eqb name "ORAS_CACHE" then "/var/cache/oras" else "";
  oci_open := oci_open host;
  credential_NewStore := credential_NewStore host;
  os_TempName := os_TempName host;
  file_New := file_New host;
  oras_Copy := oras_Copy host;
  filepath_Join := filepath_Join host;
  sha1_Sum := sha1_Sum host;
|}.

(** The same host with a registry that refuses the copy after having
    written a first file. *)
Definition host_denied : Host := {|
  remote_ParseReference := remote_ParseReference host;
  os_Getenv := os_Getenv host;
  oci_open := oci_open host;
  credential_NewStore := credential_NewStore host;
  os_TempName := os_TempName host;
  file_New := file_New host;
  oras_Copy := fun _ _ dst _ fs =>
    (Err "unauthorized",
     {| files := <[workingDir dst +:+ "/partial" := hello]> (files fs);
        dirs := dirs fs |});
  filepath_Join := filepath_Join host;
  sha1_Sum := sha1_Sum host;
|}.

Definition clients1 : Provider.clients := {| Provider.version := "1.0.0" |}.

Definition clients2 : Provider2.clients :=
  {| Provider2.version := "1.0.0";
     Provider2.client :=
       {| ClientTransport := Provider2.transport;
          UserAgent := "terraform-provider-oras/1.0.0";
          ClientCredential := fun _ => Ok EmptyCredential |} |}.

Definition world : World :=
  {| fs := {| files := ∅; dirs := ∅ |}; calls := [] |}.

Definition file_request (filename : string) : ResourceData :=
  {| attrs := {[ "name" := "ghcr.io/acme/app:v1"; "filename" := filename ]};
     Id := "" |}.

Definition artifact_request : ResourceData :=
  {| attrs := {[ "name" := "ghcr.io/acme/app:v1"; "output_path" := "/out" ]};
     Id := "" |}.

End Demo.

(** A toy content model for running the cache policy: the digest of a
    byte sequence is its hexadecimal text, the Remote Target serves one
    blob, and writes never fail. *)
Module CacheDemo.

Definition digest_of (content : list byte) : Digest :=
  "hex:" +:+ Hex.EncodeToString content.

Definition hello_descriptor : Descriptor :=
  {| MediaType := "text/plain"; Digest_ := "hex:6869"; Size := 2 |}.

Definition remote_fetch (n : nat) (d : Descriptor) : Result (list byte) :=
  if String.eqb (Digest_ d) "hex:6869" then Ok Demo.hello
  else Err Cache.NotFoundError.

Definition store_io (entries : gmap Digest (list byte)) (d : Descriptor)
  : option error := None.

Definition empty : Cache.State :=
  {| Cache.local := ∅; Cache.remote_calls := 0 |}.

Definition Fetch := Cache.Fetch digest_of remote_fetch store_io.

End CacheDemo.

(** ** The precedence of credential sources, as documented *)

(** The precedence as the documentation words it, for one
    [registry_auth] block whose five attributes are strings: a non-empty
    [username] gives exactly [(username, password)]; otherwise a non-empty
    [config_file_content] is used; otherwise the [config_file] path is
    used. *)
Definition precedence_as_stated (lib : ConfigLib) (fs : FS)
    (authMap : gmap string any) : Prop :=
  forall address username password configFileContent configFile,
    authMap !! "address" = Some (AnyString address) ->
    authMap !! "username" = Some (AnyString username) ->
    authMap !! "password" = Some (AnyString password) ->
    authMap !! "config_file_content" = Some (AnyString configFileContent) ->
    authMap !! "config_file" = Some (AnyString configFile) ->
    let hostname := Provider2.convertToHostname address in
    let stored := Provider2.registryAuthCredential lib fs authMap in
    (username <> "" ->
       stored = Provider2.Done
                  (hostname, {| Username := username; Password := password;
                                RefreshToken := ""; AccessToken := "" |}))
    /\ (username = "" -> configFileContent <> "" ->
        stored = (cred ← Provider2.credentialFromContent lib hostname configFileContent;
                  Provider2.Done (hostname, cred)))
    /\ (username = "" -> configFileContent = "" ->
        stored = (cred ← Provider2.credentialFromFile lib fs hostname configFile;
                  Provider2.Done (hostname, cred))).

(** A docker configuration library for running the model: a
    configuration is a table of logins by hostname, every non-empty text
    loads as the table with the one login of [registry.my.company.com],
    and [~] is not expanded. *)
Module ConfigDemo.

Definition lib : ConfigLib := {|
  ConfigFile := gmap string (string * string);
  configfile_New := fun _ => ∅;
  LoadFromReader := fun cf data =>
    if String.eqb data "" then (Some "EOF", cf, "")
    else (None, <["registry.my.company.com" := ("alice", "wonderland")]> cf, "");
  LegacyLoadFromReader := fun cf data => (Some "EOF", cf, data);
  GetAuthConfig := fun cf hostname => Ok (default ("", "") (cf !! hostname));
  homedir_Expand := fun path => Ok path;
|}.

Definition block (address username password configFileContent configFile : string)
  : gmap string any :=
  {[ "address" := AnyString address;
     "username" := AnyString username;
     "password" := AnyString password;
     "config_file_content" := AnyString configFileContent;
     "config_file" := AnyString configFile ]}.

(** The three blocks of the example configuration, and a block that
    names no source at all. *)
Definition by_file : gmap string any :=
  block "registry-1.docker.io" "" "" "" "~/.docker/config.json".
Definition by_content : gmap string any :=
  block "registry.my.company.com" "" "" "{ }" "~/.docker/config.json".
Definition by_password : gmap string any :=
  block "quay.io:8181" "someuser" "somepass" "" "~/.docker/config.json".
Definition no_source : gmap string any :=
  block "quay.io" "" "" "" "".

(** A file system holding the docker configuration file. *)
Definition disk : FS :=
  {| files := {[ "~/.docker/config.json" := [x7b; x7d] ]}; dirs := ∅ |}.

End ConfigDemo.

(** A host whose registry runs on the local machine, for running both
    revisions of [NewRepository]. *)
Module DemoLocal.

Definition reference : Reference :=
  {| Registry := "localhost:5000"; Repository_ := "acme/app"; Reference_ := "v1" |}.

Definition host : Host := {|
  remote_ParseReference := fun s =>
    if String.eqb s "localhost:5000/acme/app:v1" then Ok reference
    else Err "invalid reference";
  os_Getenv := os_Getenv Demo.host_cached;
  oci_open := oci_open Demo.host;
  credential_NewStore := credential_NewStore Demo.host;
  os_TempName := os_TempName Demo.host;
  file_New := file_New Demo.host;
  oras_Copy := oras_Copy Demo.host;
  filepath_Join := filepath_Join Demo.host;
  sha1_Sum := sha1_Sum Demo.host;
|}.

Definition request : ResourceData :=
  {| attrs := {[ "name" := "localhost:5000/acme/app:v1"; "output_path" := "/out";
                 "filename" := "hello.txt" ]};
     Id := "" |}.

End DemoLocal.

(** More [registry_auth] blocks for running [providerSetToCredentials]:
    a second block for the hostname [quay.io], a block whose
    configuration file does not exist, and a block without address. *)
Module ConfigDemo2.

Definition override : gmap string any :=
  ConfigDemo.block "https://quay.io/v2/" "bob" "builder" "" "".

Definition broken : gmap string any :=
  ConfigDemo.block "private.example" "" "" "" "/missing.json".

Definition no_address : gmap string any :=
  {[ "username" := AnyString "someuser"; "password" := AnyString "somepass" ]}.

Definition only_address : gmap string any :=
  {[ "address" := AnyString "ghcr.io/acme" ]}.

End ConfigDemo2.

(** A world in which one file exists before a read starts. *)
Module DemoWorld.

Definition world : World :=
  {| fs := {| files := {[ "/etc/motd" := Demo.hello ]}; dirs := {[ "/etc" ]} |};
     calls := [] |}.

End DemoWorld.
Example SplitHostPort_plain :
  GoNet.SplitHostPort "localhost:5000" = ("localhost", "5000", None).
Proof. reflexivity. Qed.

Example SplitHostPort_bracket :
  GoNet.SplitHostPort "[::1]:80" = ("::1", "80", None).
Proof. reflexivity. Qed.

Example SplitHostPort_noport :
  GoNet.SplitHostPort "ghcr.io" = ("", "", Some GoNet.missingPort).
Proof. reflexivity. Qed.

Example SplitHostPort_colons :
  GoNet.SplitHostPort "a:b:c" = ("", "", Some GoNet.tooManyColons).
Proof. reflexivity. Qed.

Example isPlainHttp_localhost :
  Provider.isPlainHttp {| Provider.version := "1" |} "localhost" = true.
Proof. reflexivity. Qed.

Example isPlainHttp_localhost_port :
  Provider.isPlainHttp {| Provider.version := "1" |} "localhost:5000" = true.
Proof. reflexivity. Qed.

Example isPlainHttp_bracketed :
  Provider.isPlainHttp {| Provider.version := "1" |} "[localhost]:5000" = true.
Proof. reflexivity. Qed.

Example isPlainHttp_loopback_ip :
  Provider.isPlainHttp {| Provider.version := "1" |} "127.0.0.1:5000" = false.
Proof. reflexivity. Qed.

Example isPlainHttp_remote :
  Provider.isPlainHttp {| Provider.version := "1" |} "ghcr.io" = false.
Proof. reflexivity. Qed.


Example base64_foobar :
  Base64.EncodeToString (list_byte_of_string "foobar") = "Zm9vYmFy"
  /\ Base64.EncodeToString (list_byte_of_string "fooba") = "Zm9vYmE="
  /\ Base64.EncodeToString (list_byte_of_string "foob") = "Zm9vYg=="
  /\ Base64.DecodeString "Zm9vYg==" = Ok (list_byte_of_string "foob")
  /\ Base64.DecodeString "Zm9v
YmE=" = Ok (list_byte_of_string "fooba")
  /\ Base64.DecodeString "Zm9vYg=" = Err Base64.CorruptInputError
  /\ Base64.DecodeString "Zm9vYg==Zm9v" = Err Base64.CorruptInputError.
Proof. repeat split; vm_compute; reflexivity. Qed.

Example hex_bytes :
  Hex.EncodeToString [x00; xff; x1a] = "00ff1a".
Proof. reflexivity. Qed.

Example host_part_examples :
  host_part "localhost" = "localhost"
  /\ host_part "localhost:5000" = "localhost"
  /\ host_part "[localhost]:5000" = "localhost"
  /\ host_part "[::1]:5000" = "::1"
  /\ host_part "ghcr.io" = "ghcr.io"
  /\ host_part "registry.example.com:443" = "registry.example.com".
Proof. repeat split; reflexivity. Qed.

(** ** Facts about the string helpers *)

Section StringFacts.
Import GoStrings.

Lemma IndexByte_lower (s : string) (c : ascii) : -1 <= IndexByte s c.
Proof.
  induction s as [|a s IH]; simpl; [lia|].
  destruct (Ascii.eqb a c); [lia|].
  destruct (Z.ltb_spec (IndexByte s c) 0); lia.
Qed.

Lemma LastIndexByte_lower (s : string) (c : ascii) : -1 <= LastIndexByte s c.
Proof.
  induction s as [|a s IH]; simpl; [lia|].
  destruct (Z.leb_spec 0 (LastIndexByte s c)); [lia|].
  destruct (Ascii.eqb a c); lia.
Qed.

(** A string with a last occurrence of [c] has a first one. *)
Lemma LastIndexByte_IndexByte (s : string) (c : ascii) :
  0 <= LastIndexByte s c -> 0 <= IndexByte s c.
Proof.
  induction s as [|a s IH]; simpl; [lia|].
  destruct (Ascii.eqb a c); [lia|].
  destruct (Z.leb_spec 0 (LastIndexByte s c)); [|lia].
  intros _. specialize (IH ltac:(lia)).
  destruct (Z.ltb_spec (IndexByte s c) 0); lia.
Qed.

Lemma slice_cons_0 (a : ascii) (s : string) (i : Z) :
  0 <= i -> slice (String a s) 0 (i + 1) = String a (slice s 0 i).
Proof.
  intros Hi. unfold slice.
  replace (Z.to_nat (i + 1 - 0)) with (S (Z.to_nat (i - 0))) by lia.
  reflexivity.
Qed.

Lemma slice_cons_1 (a : ascii) (s : string) (i : Z) :
  0 <= i -> slice (String a s) 1 (i + 1) = slice s 0 i.
Proof.
  intros Hi. unfold slice.
  replace (Z.to_nat (i + 1 - 1)) with (Z.to_nat (i - 0)) by lia.
  reflexivity.
Qed.

Lemma slice_from_0 (s : string) : slice_from s 0 = s.
Proof.
  unfold slice_from, slice, len.
  rewrite Z.sub_0_r, Nat2Z.id. change (Z.to_nat 0) with 0%nat.
  induction s as [|a s IH]; simpl; [reflexivity|]. now rewrite IH.
Qed.

(** When the text before the last [c] holds no [c], the last occurrence
    is also the first. *)
Lemma IndexByte_eq_LastIndexByte (s : string) (c : ascii) :
  0 <= LastIndexByte s c ->
  IndexByte (slice s 0 (LastIndexByte s c)) c < 0 ->
  IndexByte s c = LastIndexByte s c.
Proof.
  induction s as [|a s IH]; simpl; [lia|].
  destruct (Z.leb_spec 0 (LastIndexByte s c)) as [Hl|Hl].
  - intros _. rewrite slice_cons_0 by assumption. simpl.
    destruct (Ascii.eqb a c); [lia|].
    destruct (Z.ltb_spec (IndexByte (slice s 0 (LastIndexByte s c)) c) 0) as [Hs|Hs];
      [|lia].
    intros _. rewrite (IH Hl Hs).
    destruct (Z.ltb_spec (LastIndexByte s c) 0); lia.
  - destruct (Ascii.eqb a c); [reflexivity|lia].
Qed.

End StringFacts.

(** ** Plain HTTP is for localhost only *)

Section PlainHTTP.
Import GoStrings.

(** Whenever [isPlainHttp] answers [true], the host part of the registry
  string is [localhost]. *)
Lemma isPlainHttp_true (c : Provider.clients) (r : string) :
Provider.isPlainHttp c r = true -> host_part r = "localhost".
Proof.
unfold Provider.isPlainHttp.
destruct (GoNet.SplitHostPort r) as [[host port] err] eqn:E.
destruct (String.eqb_spec r "localhost") as [->|Hr].
{ intros _. reflexivity. }
rewrite orb_false_r.
destruct (String.eqb_spec host "localhost") as [->|Hh]; [intros _|discriminate].
unfold GoNet.SplitHostPort in E.
destruct (Z.ltb_spec (LastIndexByte r ":") 0) as [Hi|Hi]; [discriminate|].
pose proof (LastIndexByte_IndexByte r ":" Hi) as Hcolon.
unfold host_part.
destruct (Z.ltb_spec (IndexByte r ":") 0) as [?|_]; [lia|].
destruct (Ascii.eqb_spec (head_byte r) "[") as [Hb|Hb].
- (* "[host]:port" *)
  destruct (Z.ltb_spec (IndexByte r "]") 0) as [He|He]; [discriminate|].
  destruct (IndexByte r "]" + 1 =? len r); [discriminate|].
  destruct (IndexByte r "]" + 1 =? LastIndexByte r ":");
    [|destruct (Ascii.eqb _ _); discriminate].
  destruct (0 <=? IndexByte (slice_from r 1) "["); [discriminate|].
  destruct (0 <=? IndexByte (slice_from r (IndexByte r "]" + 1)) "]");
    [discriminate|].
  injection E as Hhost _ _. simpl.
  destruct r as [|a r']; [discriminate|]. simpl in Hb. subst a.
  simpl in He, Hhost |- *.
  destruct (Z.ltb_spec (IndexByte r' "]") 0) as [?|He']; [lia|].
  rewrite slice_cons_1 in Hhost by assumption.
  rewrite slice_cons_0 by assumption. rewrite Hhost. reflexivity.
- (* "host:port" *)
  destruct (Z.leb_spec 0 (IndexByte (slice r 0 (LastIndexByte r ":")) ":"))
    as [?|Hone]; [discriminate|].
  rewrite slice_from_0 in E.
  destruct (0 <=? IndexByte r "["); [discriminate|].
  destruct (Z.leb_spec 0 (IndexByte r "]")) as [?|Hnb]; [discriminate|].
  injection E as Hhost _ _.
  destruct (Z.ltb_spec (IndexByte r "]") 0) as [_|?]; [|lia]. simpl.
  rewrite (IndexByte_eq_LastIndexByte r ":" Hi Hone). exact Hhost.
Qed.

End PlainHTTP.

(** [NewRepository] keeps the parsed reference and sets [PlainHTTP] from
    the registry of that reference. *)
Lemma NewRepository_PlainHTTP (h : Host) (c : Provider.clients)
    (reference : string) (repo : Repository) :
  Provider.NewRepository h c reference = Ok repo ->
  PlainHTTP repo = Provider.isPlainHttp c (Registry (RepoReference repo)).
Proof.
  unfold Provider.NewRepository.
  destruct (remote_NewRepository h reference) as [r0|e]; [|discriminate].
  simpl. destruct (Provider.authClient h c _); [|discriminate].
  intros [= <-]. reflexivity.
Qed.

(** C2. Plain HTTP is enabled only for localhost: for every registry
    string whose host part is not [localhost], [isPlainHttp] returns
    [false], and every repository [NewRepository] builds for such a
    registry has [PlainHTTP] off, so its client speaks HTTPS. *)
Theorem plain_http_only_for_localhost (c : Provider.clients) (registry : string) :
  host_part registry <> "localhost" ->
  Provider.isPlainHttp c registry = false
  /\ forall (h : Host) (reference : string) (repo : Repository),
       Provider.NewRepository h c reference = Ok repo ->
       Registry (RepoReference repo) = registry ->
       PlainHTTP repo = false.
Proof.
  intros Hhost.
  assert (Hfalse : Provider.isPlainHttp c registry = false).
  { destruct (Provider.isPlainHttp c registry) eqn:E; [|reflexivity].
    exfalso. apply Hhost. exact (isPlainHttp_true c registry E). }
  split; [exact Hfalse|].
  intros h reference repo Hnew Hreg.
  rewrite (NewRepository_PlainHTTP h c reference repo Hnew), Hreg.
  exact Hfalse.
Qed.

Lemma plain_http_only_for_localhost_witness :
  host_part "ghcr.io" <> "localhost"
  /\ Provider.isPlainHttp Demo.clients1 "ghcr.io" = false
  /\ forall repo,
       Provider.NewRepository Demo.host Demo.clients1 "ghcr.io/acme/app:v1" = Ok repo ->
       PlainHTTP repo = false.
Proof.
  assert (Hne : host_part "ghcr.io" <> "localhost") by (vm_compute; discriminate).
  split; [exact Hne|].
  destruct (plain_http_only_for_localhost Demo.clients1 "ghcr.io" Hne) as [H1 H2].
  split; [exact H1|].
  intros repo Hrepo. apply (H2 Demo.host "ghcr.io/acme/app:v1" repo Hrepo).
  vm_compute in Hrepo. injection Hrepo as <-. reflexivity.
Defined.

(** ** The credential callback of [authClient] *)

(** C3. For the registry [docker.io] the credential function looks up
    the pull hostname [registry-1.docker.io] under the legacy login
    identity [https://index.docker.io/v1/]; every other hostname, and
    every hostname of every other registry, reaches the credential store
    unchanged. *)
Theorem docker_io_credential_remap (h : Host) (c : Provider.clients)
    (registry : string) (store : string -> Result Credential)
    (client : AuthClient) :
  credential_NewStore h = Ok store ->
  Provider.authClient h c registry = Ok client ->
  (registry = "docker.io" ->
     ClientCredential client "registry-1.docker.io"
       = store "https://index.docker.io/v1/"
     /\ forall hostname, hostname <> "registry-1.docker.io" ->
          ClientCredential client hostname = store hostname)
  /\ (registry <> "docker.io" ->
      forall hostname, ClientCredential client hostname = store hostname).
Proof.
  intros Hstore. unfold Provider.authClient. rewrite Hstore.
  intros [= <-]. simpl. split.
  - intros ->. simpl. split; [reflexivity|].
    intros hostname Hne.
    destruct (String.eqb_spec hostname "registry-1.docker.io"); [contradiction|].
    reflexivity.
  - intros Hne hostname.
    destruct (String.eqb_spec registry "docker.io"); [contradiction|].
    reflexivity.
Qed.

Lemma docker_io_credential_remap_witness :
  exists client,
    Provider.authClient Demo.host Demo.clients1 "docker.io" = Ok client
    /\ ClientCredential client "registry-1.docker.io"
         = Demo.echo_store "https://index.docker.io/v1/"
    /\ ClientCredential client "ghcr.io" = Demo.echo_store "ghcr.io".
Proof.
  eexists. split; [reflexivity|].
  destruct (docker_io_credential_remap Demo.host Demo.clients1 "docker.io"
              Demo.echo_store _ eq_refl eq_refl) as [Hdocker _].
  destruct (Hdocker eq_refl) as [Hremap Hother].
  split; [exact Hremap|]. apply Hother. discriminate.
Defined.

(** ** The HTTP transport *)

(** C8. Every auth client either revision constructs has a transport
    with a dial timeout of 30 seconds, a TLS handshake timeout of 10
    seconds, an idle-connection timeout of 90 seconds and at most 100 idle
    connections; the later revision always constructs one.  A second is
    [10^9] nanoseconds and the durations fit the 64-bit duration type. *)
Theorem auth_client_transport_values :
  (forall h c registry client,
     Provider.authClient h c registry = Ok client ->
     let t := ClientTransport client in
     Timeout (DialContext t) = 30 * GoTime.Second
     /\ TLSHandshakeTimeout t = 10 * GoTime.Second
     /\ IdleConnTimeout t = 90 * GoTime.Second
     /\ MaxIdleConns t = 100)
  /\ (forall version creds,
        exists client,
          Provider2.authClient version creds = Ok client
          /\ let t := ClientTransport client in
             Timeout (DialContext t) = 30 * GoTime.Second
             /\ TLSHandshakeTimeout t = 10 * GoTime.Second
             /\ IdleConnTimeout t = 90 * GoTime.Second
             /\ MaxIdleConns t = 100)
  /\ GoTime.Second = 1000000000
  /\ 90 * GoTime.Second <= GoTime.int64_max.
Proof.
  split; [|split; [|split]].
  - intros h c registry client. unfold Provider.authClient.
    destruct (credential_NewStore h); [|discriminate].
    intros [= <-]. repeat split.
  - intros version creds. eexists. split; [reflexivity|]. repeat split.
  - reflexivity.
  - vm_compute. discriminate.
Qed.

Lemma auth_client_transport_values_witness :
  exists client,
    Provider.authClient Demo.host Demo.clients1 "ghcr.io" = Ok client
    /\ Timeout (DialContext (ClientTransport client)) = 30000000000
    /\ TLSHandshakeTimeout (ClientTransport client) = 10000000000
    /\ IdleConnTimeout (ClientTransport client) = 90000000000
    /\ MaxIdleConns (ClientTransport client) = 100.
Proof.
  eexists. split; [reflexivity|].
  destruct auth_client_transport_values as [H1 _].
  exact (H1 Demo.host Demo.clients1 "ghcr.io" _ eq_refl).
Defined.

(** ** The cache switch *)

(** C4. With [ORAS_CACHE] empty, [CachedTarget] returns the given target
    itself; with [ORAS_CACHE] set, every target it returns is the cache
    wrapper of the given target over the content store opened at that
    path, and a target is returned exactly when the store can be opened.
    Both revisions behave alike. *)
Theorem CachedTarget_switch (h : Host) (c1 : Provider.clients)
    (c2 : Provider2.clients) (src : Target) :
  let root := os_Getenv h "ORAS_CACHE" in
  (root = "" ->
     Provider.CachedTarget h c1 src = Ok src
     /\ Provider2.CachedTarget h c2 src = Ok src)
  /\ (root <> "" ->
      Provider.CachedTarget h c1 src = Provider2.CachedTarget h c2 src
      /\ (forall t, Provider2.CachedTarget h c2 src = Ok t ->
            t = CacheTarget src {| store_root := root |})
      /\ (oci_open h root = None ->
            Provider2.CachedTarget h c2 src
              = Ok (CacheTarget src {| store_root := root |}))).
Proof.
  intros root. unfold Provider.CachedTarget, Provider2.CachedTarget, oci_New.
  fold root. split.
  - intros ->. split; reflexivity.
  - intros Hset. destruct (String.eqb_spec root ""); [contradiction|]. simpl.
    split; [reflexivity|]. split.
    + intros t. destruct (oci_open h root); [discriminate|].
      intros [= <-]. reflexivity.
    + intros ->. reflexivity.
Qed.

Lemma CachedTarget_switch_witness :
  let repo := {| RepoReference := Demo.reference; PlainHTTP := false; Client := None |} in
  Provider2.CachedTarget Demo.host Demo.clients2 (RemoteTarget repo)
    = Ok (RemoteTarget repo)
  /\ Provider2.CachedTarget Demo.host_cached Demo.clients2 (RemoteTarget repo)
       = Ok (CacheTarget (RemoteTarget repo) {| store_root := "/var/cache/oras" |}).
Proof.
  intros repo. split.
  - destruct (CachedTarget_switch Demo.host Demo.clients1 Demo.clients2
                (RemoteTarget repo)) as [Hoff _].
    apply Hoff. reflexivity.
  - destruct (CachedTarget_switch Demo.host_cached Demo.clients1 Demo.clients2
                (RemoteTarget repo)) as [_ Hon].
    apply Hon; [vm_compute; discriminate | reflexivity].
Defined.

(** ** The pull-through policy of the Cache Target *)

Section CachePolicy.
Context (digest_of : list byte -> Digest).
Context (remote_fetch : nat -> Descriptor -> Result (list byte)).
Context (store_io : gmap Digest (list byte) -> Descriptor -> option error).

Local Abbreviation Fetch := (Cache.Fetch digest_of remote_fetch store_io).

(** A hit: an entry of the Local Content Store is returned as it is, and
    neither the store nor the call count of the Remote Target changes. *)
Lemma Fetch_hit (d : Descriptor) (s : Cache.State) (content : list byte) :
  Cache.local s !! Digest_ d = Some content ->
  Fetch d s = (Ok content, s).
Proof.
  intros Hentry. unfold Cache.Fetch, Cache.local_exists, Cache.local_fetch.
  rewrite Hentry. rewrite bool_decide_eq_true_2 by eauto. reflexivity.
Qed.

(** A fetch that returns bytes leaves them in the Local Content Store. *)
Lemma Fetch_ok_stored (d : Descriptor) (s s1 : Cache.State) (content : list byte) :
  Fetch d s = (Ok content, s1) ->
  Cache.local s1 !! Digest_ d = Some content.
Proof.
  unfold Cache.Fetch, Cache.local_exists, Cache.local_fetch,
    Cache.remote_Fetch, Cache.local_store.
  destruct (Cache.local s !! Digest_ d) as [entry|] eqn:Hentry.
  - rewrite bool_decide_eq_true_2 by eauto. intros [= <- <-]. exact Hentry.
  - rewrite bool_decide_eq_false_2 by (intros [? ?]; discriminate).
    destruct (remote_fetch (Cache.remote_calls s) d) as [bytes|e]; [|discriminate].
    destruct (Cache.verify digest_of d bytes); [|discriminate].
    simpl. destruct (store_io (Cache.local s) d); [discriminate|].
    intros [= <- <-]. simpl. apply lookup_insert_eq.
Qed.

(** C1. Once the Local Content Store holds an entry for a digest, fetch
    returns its bytes without contacting the Remote Target; hence after a
    fetch that returned bytes, a second fetch of the same digest returns
    the same bytes, makes no remote call and leaves the state as it is. *)
Theorem cache_fetch_idempotent (d d' : Descriptor) (s s1 : Cache.State)
    (content : list byte) :
  Digest_ d' = Digest_ d ->
  Fetch d s = (Ok content, s1) ->
  Fetch d' s1 = (Ok content, s1)
  /\ Cache.remote_calls (Fetch d' s1).2 = Cache.remote_calls s1
  /\ (forall s2 entry, Cache.local s2 !! Digest_ d = Some entry ->
        Fetch d s2 = (Ok entry, s2)).
Proof.
  intros Hsame Hfirst.
  assert (Hsecond : Fetch d' s1 = (Ok content, s1)).
  { apply Fetch_hit. rewrite Hsame. exact (Fetch_ok_stored d s s1 content Hfirst). }
  split; [exact Hsecond|]. split; [now rewrite Hsecond|].
  intros s2 entry. apply Fetch_hit.
Qed.

End CachePolicy.

Lemma cache_fetch_idempotent_witness :
  let s1 := {| Cache.local := {[ "hex:6869" := Demo.hello ]};
               Cache.remote_calls := 1 |} in
  CacheDemo.Fetch CacheDemo.hello_descriptor CacheDemo.empty = (Ok Demo.hello, s1)
  /\ CacheDemo.Fetch CacheDemo.hello_descriptor s1 = (Ok Demo.hello, s1).
Proof.
  intros s1.
  assert (Hfirst : CacheDemo.Fetch CacheDemo.hello_descriptor CacheDemo.empty
                   = (Ok Demo.hello, s1)) by (vm_compute; reflexivity).
  split; [exact Hfirst|].
  destruct (cache_fetch_idempotent CacheDemo.digest_of CacheDemo.remote_fetch
              CacheDemo.store_io CacheDemo.hello_descriptor
              CacheDemo.hello_descriptor CacheDemo.empty s1 Demo.hello
              eq_refl Hfirst) as [Hsecond _].
  exact Hsecond.
Defined.

(** ** Base64: decoding undoes encoding *)

Section Base64Facts.
Import Base64.

Lemma byte_to_Z_range (b : byte) : 0 <= byte_to_Z b < 256.
Proof.
  unfold byte_to_Z. pose proof (Byte.to_N_bounded b) as Hb.
  lia.
Qed.

Lemma byte_of_to_Z (b : byte) : byte_of_Z (byte_to_Z b) = b.
Proof.
  unfold byte_of_Z. rewrite Z.mod_small by apply byte_to_Z_range.
  unfold byte_to_Z. rewrite N2Z.id, Byte.of_to_N. reflexivity.
Qed.

(** Bits below [2^k] and multiples of [2^k] do not overlap. *)
Lemma lor_pow2_add (a b k : Z) :
  0 <= k -> 0 <= b < 2 ^ k -> Z.lor (a * 2 ^ k) b = a * 2 ^ k + b.
Proof.
  intros Hk Hb.
  assert (Hdisjoint : Z.land (a * 2 ^ k) b = 0).
  { apply Z.bits_inj'. intros n Hn.
    rewrite Z.land_spec, Z.bits_0, <- Z.shiftl_mul_pow2 by assumption.
    destruct (Z.lt_ge_cases n k) as [Hlt|Hge].
    - rewrite Z.shiftl_spec_low by assumption. reflexivity.
    - rewrite <- (Z.mod_small b (2 ^ k)) by assumption.
      rewrite Z.mod_pow2_bits_high by lia. apply andb_false_r. }
  pose proof (Z.add_lor_land (a * 2 ^ k) b). lia.
Qed.

Lemma pack3_add (b0 b1 b2 : Z) :
  0 <= b1 < 256 -> 0 <= b2 < 256 ->
  pack3 b0 b1 b2 = b0 * 65536 + b1 * 256 + b2.
Proof.
  intros H1 H2. unfold pack3.
  rewrite !Z.shiftl_mul_pow2 by lia.
  rewrite (lor_pow2_add b0 (b1 * 2 ^ 8) 16) by lia.
  replace (b0 * 2 ^ 16 + b1 * 2 ^ 8) with ((b0 * 256 + b1) * 2 ^ 8) by lia.
  rewrite lor_pow2_add by lia. lia.
Qed.

Lemma pack4_add (d0 d1 d2 d3 : Z) :
  0 <= d1 < 64 -> 0 <= d2 < 64 -> 0 <= d3 < 64 ->
  pack4 d0 d1 d2 d3 = d0 * 262144 + d1 * 4096 + d2 * 64 + d3.
Proof.
  intros H1 H2 H3. unfold pack4.
  rewrite !Z.shiftl_mul_pow2 by lia.
  rewrite (lor_pow2_add d0 (d1 * 2 ^ 12) 18) by lia.
  replace (d0 * 2 ^ 18 + d1 * 2 ^ 12) with ((d0 * 64 + d1) * 2 ^ 12) by lia.
  rewrite (lor_pow2_add _ (d2 * 2 ^ 6) 12) by lia.
  replace ((d0 * 64 + d1) * 2 ^ 12 + d2 * 2 ^ 6)
    with (((d0 * 64 + d1) * 64 + d2) * 2 ^ 6) by lia.
  rewrite lor_pow2_add by lia. lia.
Qed.

Lemma sextet_div_mod (val k : Z) :
  0 <= k -> sextet val k = (val / 2 ^ k) mod 64.
Proof.
  intros Hk. unfold sextet. rewrite Z.shiftr_div_pow2 by assumption.
  change 0x3F with (Z.ones 6). rewrite Z.land_ones by lia. reflexivity.
Qed.

Lemma sextet_range (val k : Z) : 0 <= k -> 0 <= sextet val k < 64.
Proof.
  intros Hk. rewrite sextet_div_mod by assumption.
  apply Z.mod_pos_bound. lia.
Qed.

Lemma quantum_roundtrip (b0 b1 b2 : Z) :
  0 <= b0 < 256 -> 0 <= b1 < 256 -> 0 <= b2 < 256 ->
  let val := pack3 b0 b1 b2 in
  let val' := pack4 (sextet val 18) (sextet val 12) (sextet val 6) (sextet val 0) in
  val' = val
  /\ Z.shiftr val 16 mod 256 = b0
  /\ Z.shiftr val 8 mod 256 = b1
  /\ Z.shiftr val 0 mod 256 = b2.
Proof.
  intros H0 H1 H2 val val'. subst val'.
  rewrite pack4_add by (apply sextet_range; lia).
  rewrite !sextet_div_mod by lia. subst val.
  rewrite pack3_add by assumption.
  rewrite !Z.shiftr_div_pow2 by lia.
  change (2 ^ 18) with 262144. change (2 ^ 12) with 4096.
  change (2 ^ 6) with 64. change (2 ^ 0) with 1.
  change (2 ^ 16) with 65536. change (2 ^ 8) with 256.
  repeat split; Z.div_mod_to_equations; lia.
Qed.

(** A property checked on the 64 sextets holds of every sextet. *)
Lemma sextet_check (P : Z -> bool) :
  forallb P (map Z.of_nat (seq 0 64)) = true ->
  forall v, 0 <= v < 64 -> P v = true.
Proof.
  intros Hall v Hv. rewrite forallb_forall in Hall. apply Hall.
  rewrite <- (Z2Nat.id v) by lia. apply in_map. apply in_seq. lia.
Qed.

(** The decode table inverts the alphabet, and no alphabet character is
    a line break. *)
Lemma alphabet_roundtrip (v : Z) :
  0 <= v < 64 ->
  decodeMap (encode v) = v
  /\ in_alphabet (encode v) = true
  /\ is_newline (encode v) = false.
Proof.
  intros Hv.
  pose proof (sextet_check
    (fun v => (decodeMap (encode v) =? v) && negb (is_newline (encode v)))
    ltac:(vm_compute; reflexivity) v Hv) as Hcheck.
  apply andb_true_iff in Hcheck as [Hdec Hnl].
  apply Z.eqb_eq in Hdec. apply negb_true_iff in Hnl.
  split; [exact Hdec|]. split; [|exact Hnl].
  unfold in_alphabet. rewrite Hdec.
  destruct (Z.eqb_spec v 0xff); [lia|reflexivity].
Qed.

Lemma decodeQuanta_full (c0 c1 c2 c3 : ascii) (rest : list ascii) :
  in_alphabet c0 = true -> in_alphabet c1 = true ->
  in_alphabet c2 = true -> in_alphabet c3 = true ->
  decodeQuanta (c0 :: c1 :: c2 :: c3 :: rest) =
    let val := pack4 (decodeMap c0) (decodeMap c1) (decodeMap c2) (decodeMap c3) in
    match decodeQuanta rest with
    | Err e => Err e
    | Ok out =>
        Ok (byte_of_Z (Z.shiftr val 16) :: byte_of_Z (Z.shiftr val 8)
            :: byte_of_Z (Z.shiftr val 0) :: out)
    end.
Proof.
  intros H0 H1 H2 H3. cbn [decodeQuanta]. rewrite H0, H1, H2, H3. reflexivity.
Qed.

Lemma decodeQuanta_pad1 (c0 c1 c2 : ascii) :
  in_alphabet c0 = true -> in_alphabet c1 = true -> in_alphabet c2 = true ->
  decodeQuanta [c0; c1; c2; StdPadding] =
    let val := pack4 (decodeMap c0) (decodeMap c1) (decodeMap c2) 0 in
    Ok [byte_of_Z (Z.shiftr val 16); byte_of_Z (Z.shiftr val 8)].
Proof.
  intros H0 H1 H2. cbn [decodeQuanta]. rewrite H0, H1, H2. reflexivity.
Qed.

Lemma decodeQuanta_pad2 (c0 c1 : ascii) :
  in_alphabet c0 = true -> in_alphabet c1 = true ->
  decodeQuanta [c0; c1; StdPadding; StdPadding] =
    let val := pack4 (decodeMap c0) (decodeMap c1) 0 0 in
    Ok [byte_of_Z (Z.shiftr val 16)].
Proof.
  intros H0 H1. cbn [decodeQuanta]. rewrite H0, H1. reflexivity.
Qed.

(** Lists taken three elements at a time. *)
Lemma list_ind_by_three {A} (P : list A -> Prop) :
  P [] -> (forall a, P [a]) -> (forall a b, P [a; b]) ->
  (forall a b c l, P l -> P (a :: b :: c :: l)) ->
  forall l, P l.
Proof.
  intros H0 H1 H2 H3 l.
  assert (Hlen : forall n l, (length l <= n)%nat -> P l).
  { clear l. induction n as [|n IH]; intros l Hl.
    - destruct l; [exact H0|simpl in Hl; lia].
    - destruct l as [|a [|b [|c l]]]; auto.
      apply H3, IH. simpl in Hl. lia. }
  exact (Hlen (length l) l (le_n _)).
Qed.

Ltac sextet_facts val k :=
  pose proof (alphabet_roundtrip (sextet val k)
                (sextet_range val k ltac:(lia))) as (? & ? & ?).

(** The encoder's output holds no character the decoder skips. *)
Lemma EncodeToString_no_newline (src : list byte) :
  filter (fun c => is_newline c = false)
         (list_ascii_of_string (EncodeToString src))
  = list_ascii_of_string (EncodeToString src).
Proof.
  induction src as [|b0|b0 b1|b0 b1 b2 rest IH] using list_ind_by_three.
  - reflexivity.
  - cbn [EncodeToString list_ascii_of_string].
    set (val := Z.shiftl (byte_to_Z b0) 16).
    sextet_facts val 18. sextet_facts val 12.
    rewrite !filter_cons_True by (assumption || reflexivity). reflexivity.
  - cbn [EncodeToString list_ascii_of_string].
    set (val := Z.lor _ _).
    sextet_facts val 18. sextet_facts val 12. sextet_facts val 6.
    rewrite !filter_cons_True by (assumption || reflexivity). reflexivity.
  - cbn [EncodeToString list_ascii_of_string].
    set (val := pack3 _ _ _).
    sextet_facts val 18. sextet_facts val 12. sextet_facts val 6.
    sextet_facts val 0.
    rewrite !filter_cons_True by assumption. rewrite IH. reflexivity.
Qed.

Lemma byte_of_Z_spec (z : Z) (b : byte) :
  z mod 256 = byte_to_Z b -> byte_of_Z z = b.
Proof.
  unfold byte_of_Z. intros ->. unfold byte_to_Z.
  rewrite N2Z.id, Byte.of_to_N. reflexivity.
Qed.

Lemma decodeQuanta_EncodeToString (src : list byte) :
  decodeQuanta (list_ascii_of_string (EncodeToString src)) = Ok src.
Proof.
  induction src as [|b0|b0 b1|b0 b1 b2 rest IH] using list_ind_by_three.
  - reflexivity.
  - cbn [EncodeToString list_ascii_of_string].
    pose proof (byte_to_Z_range b0) as Hb0.
    destruct (quantum_roundtrip (byte_to_Z b0) 0 0 Hb0 ltac:(lia) ltac:(lia))
      as (Hval & Hr0 & _ & _).
    replace (pack3 (byte_to_Z b0) 0 0) with (Z.shiftl (byte_to_Z b0) 16) in *
      by (unfold pack3; now rewrite Z.shiftl_0_l, !Z.lor_0_r).
    set (val := Z.shiftl (byte_to_Z b0) 16) in *.
    sextet_facts val 18. sextet_facts val 12.
    assert (sextet val 6 = 0 /\ sextet val 0 = 0) as [Hz6 Hz0].
    { subst val. rewrite !sextet_div_mod, Z.shiftl_mul_pow2 by lia.
      change (2 ^ 16) with 65536. change (2 ^ 6) with 64. change (2 ^ 0) with 1.
      split; Z.div_mod_to_equations; lia. }
    rewrite decodeQuanta_pad2 by assumption. cbv zeta.
    rewrite Hz6, Hz0 in Hval.
    replace (decodeMap (encode (sextet val 18))) with (sextet val 18) by congruence.
    replace (decodeMap (encode (sextet val 12))) with (sextet val 12) by congruence.
    rewrite Hval, (byte_of_Z_spec _ b0 Hr0). reflexivity.
  - cbn [EncodeToString list_ascii_of_string].
    pose proof (byte_to_Z_range b0) as Hb0.
    pose proof (byte_to_Z_range b1) as Hb1.
    destruct (quantum_roundtrip (byte_to_Z b0) (byte_to_Z b1) 0 Hb0 Hb1 ltac:(lia))
      as (Hval & Hr0 & Hr1 & _).
    replace (pack3 (byte_to_Z b0) (byte_to_Z b1) 0)
      with (Z.lor (Z.shiftl (byte_to_Z b0) 16) (Z.shiftl (byte_to_Z b1) 8)) in *
      by (unfold pack3; now rewrite Z.lor_0_r).
    assert (Hz0 : sextet (Z.lor (Z.shiftl (byte_to_Z b0) 16)
                                (Z.shiftl (byte_to_Z b1) 8)) 0 = 0).
    { replace (Z.lor (Z.shiftl (byte_to_Z b0) 16) (Z.shiftl (byte_to_Z b1) 8))
        with (pack3 (byte_to_Z b0) (byte_to_Z b1) 0)
        by (unfold pack3; now rewrite Z.lor_0_r).
      rewrite pack3_add, sextet_div_mod by lia. change (2 ^ 0) with 1.
      Z.div_mod_to_equations; lia. }
    set (val := Z.lor _ _) in *.
    sextet_facts val 18. sextet_facts val 12. sextet_facts val 6.
    rewrite decodeQuanta_pad1 by assumption. cbv zeta.
    rewrite Hz0 in Hval.
    replace (decodeMap (encode (sextet val 18))) with (sextet val 18) by congruence.
    replace (decodeMap (encode (sextet val 12))) with (sextet val 12) by congruence.
    replace (decodeMap (encode (sextet val 6))) with (sextet val 6) by congruence.
    rewrite Hval, (byte_of_Z_spec _ b0 Hr0), (byte_of_Z_spec _ b1 Hr1).
    reflexivity.
  - cbn [EncodeToString list_ascii_of_string].
    destruct (quantum_roundtrip (byte_to_Z b0) (byte_to_Z b1) (byte_to_Z b2)
                (byte_to_Z_range b0) (byte_to_Z_range b1) (byte_to_Z_range b2))
      as (Hval & Hr0 & Hr1 & Hr2).
    set (val := pack3 _ _ _) in *.
    sextet_facts val 18. sextet_facts val 12. sextet_facts val 6.
    sextet_facts val 0.
    rewrite decodeQuanta_full by assumption. cbv zeta. rewrite IH.
    replace (decodeMap (encode (sextet val 18))) with (sextet val 18) by congruence.
    replace (decodeMap (encode (sextet val 12))) with (sextet val 12) by congruence.
    replace (decodeMap (encode (sextet val 6))) with (sextet val 6) by congruence.
    replace (decodeMap (encode (sextet val 0))) with (sextet val 0) by congruence.
    rewrite Hval, (byte_of_Z_spec _ b0 Hr0), (byte_of_Z_spec _ b1 Hr1),
      (byte_of_Z_spec _ b2 Hr2).
    reflexivity.
Qed.

(** Standard base64 decoding undoes standard base64 encoding. *)
Lemma DecodeString_EncodeToString (src : list byte) :
  DecodeString (EncodeToString src) = Ok src.
Proof.
  unfold DecodeString.
  rewrite EncodeToString_no_newline. apply decodeQuanta_EncodeToString.
Qed.

End Base64Facts.

(** ** The reads of the data sources *)

Section ReadFacts.
Context {C : Type} `{Clients C}.
Context (h : Host) (opts : C).

Lemma os_MkdirTemp_ok (dir pattern temp : string) (w w1 : World) :
  os_MkdirTemp h dir pattern w = (Ok temp, w1) ->
  (temp ∉ dirs (fs w))
  /\ (temp ∈ dirs (fs w1))
  /\ calls w1 = (calls w ++ [CallMkdirTemp temp])%list.
Proof.
  unfold os_MkdirTemp.
  destruct (os_TempName h (fs w) pattern) as [name|e]; [|discriminate].
  destruct (decide (name ∈ dirs (fs w))) as [|Hfresh]; [discriminate|].
  intros [= <- <-]. simpl. split; [exact Hfresh|]. split; [set_solver|reflexivity].
Qed.

Lemma os_MkdirTemp_err (dir pattern : string) (e : error) (w w1 : World) :
  os_MkdirTemp h dir pattern w = (Err e, w1) -> w1 = w.
Proof.
  unfold os_MkdirTemp.
  destruct (os_TempName h (fs w) pattern) as [name|e'].
  - destruct (decide (name ∈ dirs (fs w))); [|discriminate]. now intros [= _ <-].
  - now intros [= _ <-].
Qed.

Lemma under_refl (root : string) : under root root = true.
Proof. unfold under. now rewrite String.eqb_refl. Qed.

(** After [os.RemoveAll(root)] nothing is left at or below [root]. *)
Lemma os_RemoveAll_gone (root : string) (w : World) :
  (root ∉ dirs (fs (os_RemoveAll root w)))
  /\ (forall p, under root p = true ->
        files (fs (os_RemoveAll root w)) !! p = None
        /\ (p ∉ dirs (fs (os_RemoveAll root w))))
  /\ calls (os_RemoveAll root w) = (calls w ++ [CallRemoveAll root])%list.
Proof.
  assert (Hbelow : forall p, under root p = true ->
            files (fs (os_RemoveAll root w)) !! p = None
            /\ (p ∉ dirs (fs (os_RemoveAll root w)))).
  { intros p Hp. simpl. split.
    - apply map_lookup_filter_None. right. intros x _. simpl. congruence.
    - rewrite elem_of_filter. intros [Hfalse _]. congruence. }
  split; [apply Hbelow, under_refl|]. split; [exact Hbelow|reflexivity].
Qed.


Lemma Copy_calls (src : Target) (ref : string) (dst : FileStore) (w w1 : World)
    (r : Result Descriptor) :
  Copy h src ref dst ref w = (r, w1) ->
  oras_Copy h src ref dst ref (fs w) = (r, fs w1)
  /\ calls w1 = (calls w ++ [CallCopy src ref dst ref])%list.
Proof.
  unfold Copy. destruct (oras_Copy h src ref dst ref (fs w)) as [r' fs'].
  intros [= <- <-]. split; reflexivity.
Qed.


(** The shapes the calls between creating and removing the scratch
    directory can take: none when [file.New] failed, the copy alone when
    the copy failed, the copy and the read of the named file otherwise. *)
Lemma FileRead_inv (d d' : ResourceData) (w w' : World) (diags : Diagnostics) :
  dataSourceOrasArtifactFileRead h opts d w = ((diags, d'), w') ->
  (w' = w /\ d' = d /\ diags <> [])
  \/ exists repo src temp w1 w2 middle,
       NewRepository h opts (rd_Get d "name") = Ok repo
       /\ CachedTarget h opts (RemoteTarget repo) = Ok src
       /\ os_MkdirTemp h "" "terraform-oras-provider-" w = (Ok temp, w1)
       /\ calls w2 = (calls w1 ++ middle)%list
       /\ w' = os_RemoveAll temp w2
       /\ ((middle = [] /\ d' = d /\ diags <> [])
           \/ exists dst r w3,
                file_New h temp = Ok dst
                /\ Copy h src (Reference_ (RepoReference repo)) dst
                     (Reference_ (RepoReference repo)) w1 = (r, w3)
                /\ ((middle = [CallCopy src (Reference_ (RepoReference repo)) dst
                                        (Reference_ (RepoReference repo))]
                     /\ d' = d /\ w2 = w3
                     /\ exists e, r = Err e /\ diags = diag_FromErr e)
                    \/ (middle = [CallCopy src (Reference_ (RepoReference repo)) dst
                                           (Reference_ (RepoReference repo));
                                  CallReadFile (filepath_Join h temp (rd_Get d "filename"))]
                        /\ is_ok r = true
                        /\ w2 = log (CallReadFile (filepath_Join h temp (rd_Get d "filename"))) w3
                        /\ match files (fs w3) !! filepath_Join h temp (rd_Get d "filename") with
                           | None =>
                               d' = d
                               /\ diags = diag_FromErr
                                    ("open " +:+ filepath_Join h temp (rd_Get d "filename")
                                     +:+ ": no such file or directory")
                           | Some content =>
                               diags = []
                               /\ Id d' = Hex.EncodeToString (sha1_Sum h content)
                               /\ attrs d' =
                                    <["content_base64" := Base64.EncodeToString content]>
                                      (<["content" := string_of_bytes content]> (attrs d))
                           end))).
Proof.
  unfold dataSourceOrasArtifactFileRead.
  destruct (NewRepository h opts (rd_Get d "name")) as [repo|e] eqn:Hrepo.
  2:{ intros [= <- <- <-]. left. repeat split. discriminate. }
  destruct (CachedTarget h opts (RemoteTarget repo)) as [src|e] eqn:Hsrc.
  2:{ intros [= <- <- <-]. left. repeat split. discriminate. }
  destruct (os_MkdirTemp h "" "terraform-oras-provider-" w) as [[temp|e] w1] eqn:Htemp.
  2:{ intros [= <- <- <-]. left. apply os_MkdirTemp_err in Htemp as ->.
      repeat split. discriminate. }
  unfold defer. intros Hrun. right.
  exists repo, src, temp, w1.
  destruct (file_New h temp) as [dst|e] eqn:Hdst.
  2:{ injection Hrun as <- <- <-. exists w1, [].
      do 3 (split; [first [reflexivity|eassumption]|]). split; [now rewrite app_nil_r|].
      split; [reflexivity|]. left. repeat split. discriminate. }
  destruct (Copy h src _ dst _ w1) as [[desc|e] w3] eqn:Hcopy.
  2:{ injection Hrun as <- <- <-.
      destruct (Copy_calls _ _ _ _ _ _ Hcopy) as [_ Hc].
      exists w3, [CallCopy src (Reference_ (RepoReference repo)) dst
                    (Reference_ (RepoReference repo))].
      do 3 (split; [first [reflexivity|eassumption]|]). split; [exact Hc|].
      split; [reflexivity|]. right. exists dst, (Err e), w3.
      split; [first [reflexivity|eassumption]|]. split; [exact Hcopy|]. left.
      do 3 (split; [reflexivity|]). exists e. split; reflexivity. }
  destruct (Copy_calls _ _ _ _ _ _ Hcopy) as [_ Hc].
  unfold os_ReadFile in Hrun.
  exists (log (CallReadFile (filepath_Join h temp (rd_Get d "filename"))) w3),
    [CallCopy src (Reference_ (RepoReference repo)) dst
       (Reference_ (RepoReference repo));
     CallReadFile (filepath_Join h temp (rd_Get d "filename"))].
  do 3 (split; [first [reflexivity|eassumption]|]).
  split; [simpl; rewrite Hc, <- app_assoc; reflexivity|].
  destruct (files (fs w3) !! filepath_Join h temp (rd_Get d "filename"))
    as [content|] eqn:Hfile; injection Hrun as <- <- <-.
  - split; [reflexivity|]. right. exists dst, (Ok desc), w3.
    split; [first [reflexivity|eassumption]|]. split; [exact Hcopy|]. right.
    do 3 (split; [reflexivity|]). rewrite Hfile.
    do 2 (split; [reflexivity|]). reflexivity.
  - split; [reflexivity|]. right. exists dst, (Ok desc), w3.
    split; [first [reflexivity|eassumption]|]. split; [exact Hcopy|]. right.
    do 3 (split; [reflexivity|]). rewrite Hfile.
    split; reflexivity.
Qed.


(** C5. The read of [oras_artifact_file] either fails before a scratch
    directory exists, or creates a fresh one, copies the artifact into the
    file store of that directory, reads the named file from below it, and
    ends, on the success path and on every error path alike, with
    [os.RemoveAll] of that directory as its last call, after which neither
    the directory nor anything below it exists. *)
Theorem scratch_directory_removed (d d' : ResourceData) (w w' : World)
    (diags : Diagnostics) :
  dataSourceOrasArtifactFileRead h opts d w = ((diags, d'), w') ->
  (w' = w /\ diags <> [])
  \/ exists temp middle,
       (temp ∉ dirs (fs w))
       /\ calls w' = (calls w ++ CallMkdirTemp temp :: middle
                               ++ [CallRemoveAll temp])%list
       /\ (temp ∉ dirs (fs w'))
       /\ (forall p, under temp p = true ->
             files (fs w') !! p = None /\ (p ∉ dirs (fs w')))
       /\ (middle = []
           \/ exists src ref dst,
                file_New h temp = Ok dst
                /\ (middle = [CallCopy src ref dst ref]
                    \/ middle =
                         [CallCopy src ref dst ref;
                          CallReadFile (filepath_Join h temp (rd_Get d "filename"))]))
       /\ (diags = [] ->
           exists src ref dst,
             file_New h temp = Ok dst
             /\ middle =
                  [CallCopy src ref dst ref;
                   CallReadFile (filepath_Join h temp (rd_Get d "filename"))]).
Proof.
  intros Hrun.
  destruct (FileRead_inv d d' w w' diags Hrun)
    as [(-> & _ & Hd)|(repo & src & temp & w1 & w2 & middle & _ & _ & Htemp
                       & Hcalls & -> & Hshape)].
  { left. split; [reflexivity|exact Hd]. }
  right. exists temp, middle.
  destruct (os_MkdirTemp_ok _ _ _ _ _ Htemp) as (Hfresh & _ & Hc1).
  destruct (os_RemoveAll_gone temp w2) as (Hgone & Hbelow & Hc2).
  split; [exact Hfresh|]. split.
  { rewrite Hc2, Hcalls, Hc1, <- !app_assoc. reflexivity. }
  split; [exact Hgone|]. split; [exact Hbelow|].
  destruct Hshape as [(-> & _ & Hd)|(dst & r & w3 & Hdst & _ & Hmid)].
  { split; [now left|]. intros ->. contradiction. }
  destruct Hmid as [(-> & _ & _ & e & _ & ->)|(-> & _ & _ & _)].
  - split; [right; eauto 6|]. discriminate.
  - split; [right; eauto 6|]. intros _. eauto.
Qed.

(** C7. When the read of [oras_artifact] succeeds, the id of the resource
    is the string form of the digest of the descriptor [oras.Copy]
    returned for the requested reference, and nothing else changed in the
    resource data. *)
Theorem artifact_id_is_root_digest (d d' : ResourceData) (w w' : World) :
  dataSourceOrasArtifactRead h opts d w = (([], d'), w') ->
  exists repo src dst desc fs',
    NewRepository h opts (rd_Get d "name") = Ok repo
    /\ CachedTarget h opts (RemoteTarget repo) = Ok src
    /\ file_New h (rd_Get d "output_path") = Ok dst
    /\ oras_Copy h src (Reference_ (RepoReference repo)) dst
         (Reference_ (RepoReference repo)) (fs w) = (Ok desc, fs')
    /\ Id d' = Digest_String (Digest_ desc)
    /\ attrs d' = attrs d.
Proof.
  unfold dataSourceOrasArtifactRead.
  destruct (NewRepository h opts (rd_Get d "name")) as [repo|e] eqn:Hrepo;
    [|discriminate].
  destruct (CachedTarget h opts (RemoteTarget repo)) as [src|e] eqn:Hsrc;
    [|discriminate].
  destruct (file_New h (rd_Get d "output_path")) as [dst|e] eqn:Hdst;
    [|discriminate].
  destruct (Copy h src _ dst _ w) as [[desc|e] w1] eqn:Hcopy; [|discriminate].
  intros [= <- <-].
  destruct (Copy_calls _ _ _ _ _ _ Hcopy) as [Horas _].
  exists repo, src, dst, desc, (fs w1).
  do 3 (split; [first [reflexivity|eassumption]|]).
  split; [exact Horas|]. split; reflexivity.
Qed.

(** C9. After a successful read of [oras_artifact_file] the attributes
    [content] and [content_base64] are both set, and decoding
    [content_base64] with standard base64 gives exactly the bytes of the
    string held by [content]. *)
Theorem content_base64_decodes_to_content (d d' : ResourceData)
    (w w' : World) :
  dataSourceOrasArtifactFileRead h opts d w = (([], d'), w') ->
  exists content content_base64,
    attrs d' !! "content" = Some content
    /\ attrs d' !! "content_base64" = Some content_base64
    /\ Base64.DecodeString content_base64 = Ok (list_byte_of_string content).
Proof.
  intros Hrun.
  destruct (FileRead_inv d d' w w' [] Hrun)
    as [(_ & _ & Hd)|(repo & src & temp & w1 & w2 & middle & _ & _ & _
                      & _ & _ & Hshape)]; [contradiction|].
  destruct Hshape as [(_ & _ & Hd)|(dst & r & w3 & _ & _ & Hmid)];
    [contradiction|].
  destruct Hmid as [(_ & _ & _ & e & _ & Hd)|(_ & _ & _ & Hfile)];
    [discriminate|].
  destruct (files (fs w3) !! filepath_Join h temp (rd_Get d "filename"))
    as [bytes|]; [|destruct Hfile as [_ Hd]; discriminate].
  destruct Hfile as (_ & _ & Hattrs).
  exists (string_of_bytes bytes), (Base64.EncodeToString bytes).
  rewrite Hattrs. split.
  { rewrite lookup_insert_ne by discriminate. apply lookup_insert_eq. }
  split; [apply lookup_insert_eq|].
  unfold string_of_bytes. rewrite list_byte_of_string_of_list_byte.
  apply DecodeString_EncodeToString.
Qed.


(** C6. Neither read has a partial-success mode.  The error of the first
    step that fails (building the repository, building the cache target,
    the copy, reading the named file) is the result of the whole read,
    carried unchanged by its one diagnostic, and the resource data is left
    as it was.  The file is looked up by name only after the copy has
    returned without error, and its absence is an error. *)
Theorem first_error_is_the_result (d : ResourceData) (w : World) :
  let reference := rd_Get d "name" in
  let file_read := dataSourceOrasArtifactFileRead h opts d w in
  let artifact_read := dataSourceOrasArtifactRead h opts d w in
  (forall e,
     NewRepository h opts reference = Err e ->
     file_read.1 = (diag_FromErr e, d) /\ artifact_read.1 = (diag_FromErr e, d))
  /\ (forall repo e,
        NewRepository h opts reference = Ok repo ->
        CachedTarget h opts (RemoteTarget repo) = Err e ->
        file_read.1 = (diag_FromErr e, d)
        /\ artifact_read.1 = (diag_FromErr e, d))
  /\ (forall repo src dst e fs',
        NewRepository h opts reference = Ok repo ->
        CachedTarget h opts (RemoteTarget repo) = Ok src ->
        file_New h (rd_Get d "output_path") = Ok dst ->
        oras_Copy h src (Reference_ (RepoReference repo)) dst
          (Reference_ (RepoReference repo)) (fs w) = (Err e, fs') ->
        artifact_read.1 = (diag_FromErr e, d))
  /\ (forall repo src temp w1 dst,
        NewRepository h opts reference = Ok repo ->
        CachedTarget h opts (RemoteTarget repo) = Ok src ->
        os_MkdirTemp h "" "terraform-oras-provider-" w = (Ok temp, w1) ->
        file_New h temp = Ok dst ->
        (forall e fs',
           oras_Copy h src (Reference_ (RepoReference repo)) dst
             (Reference_ (RepoReference repo)) (fs w1) = (Err e, fs') ->
           file_read.1 = (diag_FromErr e, d))
        /\ (forall desc fs',
              oras_Copy h src (Reference_ (RepoReference repo)) dst
                (Reference_ (RepoReference repo)) (fs w1) = (Ok desc, fs') ->
              files fs' !! filepath_Join h temp (rd_Get d "filename") = None ->
              file_read.1 =
                (diag_FromErr
                   ("open " +:+ filepath_Join h temp (rd_Get d "filename")
                    +:+ ": no such file or directory"), d)))
  /\ (file_read.1.1 <> [] -> file_read.1.2 = d)
  /\ (artifact_read.1.1 <> [] -> artifact_read.1.2 = d).
Proof.
  intros reference file_read artifact_read.
  subst reference file_read artifact_read.
  unfold dataSourceOrasArtifactFileRead, dataSourceOrasArtifactRead, defer,
    Copy, os_ReadFile.
  split; [|split; [|split; [|split; [|split]]]].
  - intros e ->. split; reflexivity.
  - intros repo e -> ->. split; reflexivity.
  - intros repo src dst e fs' -> -> -> ->. reflexivity.
  - intros repo src temp w1 dst -> -> -> ->. split.
    + intros e fs' ->. reflexivity.
    + intros desc fs' -> Habsent. simpl. rewrite Habsent. reflexivity.
  - destruct (NewRepository h opts (rd_Get d "name")) as [repo|e]; [|reflexivity].
    destruct (CachedTarget h opts (RemoteTarget repo)) as [src|e]; [|reflexivity].
    destruct (os_MkdirTemp h "" "terraform-oras-provider-" w) as [[temp|e] w1];
      [|reflexivity].
    destruct (file_New h temp) as [dst|e]; [|reflexivity].
    destruct (oras_Copy h src _ dst _ (fs w1)) as [[desc|e] fs']; [|reflexivity].
    simpl. destruct (files fs' !! _); [|reflexivity].
    simpl. intros Hne. contradiction.
  - destruct (NewRepository h opts (rd_Get d "name")) as [repo|e]; [|reflexivity].
    destruct (CachedTarget h opts (RemoteTarget repo)) as [src|e]; [|reflexivity].
    destruct (file_New h (rd_Get d "output_path")) as [dst|e]; [|reflexivity].
    destruct (oras_Copy h src _ dst _ (fs w)) as [[desc|e] fs']; [|reflexivity].
    simpl. intros Hne. contradiction.
Qed.

End ReadFacts.

Lemma scratch_directory_removed_witness :
  let run := dataSourceOrasArtifactFileRead Demo.host Demo.clients2
               (Demo.file_request "hello.txt") Demo.world in
  let denied := dataSourceOrasArtifactFileRead Demo.host_denied Demo.clients2
                  (Demo.file_request "hello.txt") Demo.world in
  run.1.1 = []
  /\ calls run.2 =
       [CallMkdirTemp "/tmp/terraform-oras-provider-1";
        CallCopy (RemoteTarget {| RepoReference := Demo.reference;
                                  PlainHTTP := false;
                                  Client := Some (Provider2.client Demo.clients2) |})
          "v1" {| workingDir := "/tmp/terraform-oras-provider-1" |} "v1";
        CallReadFile "/tmp/terraform-oras-provider-1/hello.txt";
        CallRemoveAll "/tmp/terraform-oras-provider-1"]
  /\ files (fs run.2) !! "/tmp/terraform-oras-provider-1/hello.txt" = None
  /\ denied.1.1 = diag_FromErr "unauthorized"
  /\ files (fs denied.2) !! "/tmp/terraform-oras-provider-1/partial" = None.
Proof.
  intros run denied.
  assert (Hrun : run = ((run.1.1, run.1.2), run.2)) by (now destruct run as [[? ?] ?]).
  assert (Hdenied : denied = ((denied.1.1, denied.1.2), denied.2))
    by (now destruct denied as [[? ?] ?]).
  pose proof (scratch_directory_removed Demo.host Demo.clients2 _ _ _ _ _ Hrun)
    as Hremoved.
  pose proof (scratch_directory_removed Demo.host_denied Demo.clients2 _ _ _ _ _ Hdenied)
    as Hremoved'.
  assert (Hcalls : calls run.2 =
       [CallMkdirTemp "/tmp/terraform-oras-provider-1";
        CallCopy (RemoteTarget {| RepoReference := Demo.reference;
                                  PlainHTTP := false;
                                  Client := Some (Provider2.client Demo.clients2) |})
          "v1" {| workingDir := "/tmp/terraform-oras-provider-1" |} "v1";
        CallReadFile "/tmp/terraform-oras-provider-1/hello.txt";
        CallRemoveAll "/tmp/terraform-oras-provider-1"]) by reflexivity.
  assert (Hcalls' : hd_error (calls denied.2)
                    = Some (CallMkdirTemp "/tmp/terraform-oras-provider-1"))
    by reflexivity.
  split; [reflexivity|]. split; [exact Hcalls|].
  split.
  { destruct Hremoved as [[Hw _]|(temp & middle & _ & Hc & _ & Hbelow & _)].
    - rewrite Hw in Hcalls. discriminate Hcalls.
    - rewrite Hc in Hcalls. injection Hcalls as -> _.
      apply Hbelow. reflexivity. }
  split; [reflexivity|].
  destruct Hremoved' as [[Hw _]|(temp & middle & _ & Hc & _ & Hbelow & _)].
  - rewrite Hw in Hcalls'. discriminate Hcalls'.
  - rewrite Hc in Hcalls'. injection Hcalls' as ->.
    apply Hbelow. reflexivity.
Defined.

Lemma first_error_is_the_result_witness :
  (dataSourceOrasArtifactFileRead Demo.host_denied Demo.clients2
     (Demo.file_request "hello.txt") Demo.world).1
    = (diag_FromErr "unauthorized", Demo.file_request "hello.txt")
  /\ (dataSourceOrasArtifactFileRead Demo.host Demo.clients2
        (Demo.file_request "missing.txt") Demo.world).1
       = (diag_FromErr
            "open /tmp/terraform-oras-provider-1/missing.txt: no such file or directory",
          Demo.file_request "missing.txt")
  /\ (dataSourceOrasArtifactRead Demo.host Demo.clients2
        {| attrs := {[ "name" := "not a reference" ]}; Id := "" |} Demo.world).1
       = (diag_FromErr "invalid reference",
          {| attrs := {[ "name" := "not a reference" ]}; Id := "" |}).
Proof.
  split; [|split].
  - destruct (first_error_is_the_result Demo.host_denied Demo.clients2
                (Demo.file_request "hello.txt") Demo.world)
      as (_ & _ & _ & Hcopy & _).
    destruct (Hcopy _ _ _ _ _ eq_refl eq_refl eq_refl eq_refl) as [Hfailed _].
    eapply Hfailed. reflexivity.
  - destruct (first_error_is_the_result Demo.host Demo.clients2
                (Demo.file_request "missing.txt") Demo.world)
      as (_ & _ & _ & Hread & _).
    destruct (Hread _ _ _ _ _ eq_refl eq_refl eq_refl eq_refl) as [_ Habsent].
    eapply Habsent; reflexivity.
  - destruct (first_error_is_the_result Demo.host Demo.clients2
                {| attrs := {[ "name" := "not a reference" ]}; Id := "" |}
                Demo.world) as (Hrepo & _).
    apply Hrepo. reflexivity.
Defined.

Lemma artifact_id_is_root_digest_witness :
  let run := dataSourceOrasArtifactRead Demo.host Demo.clients2
               Demo.artifact_request Demo.world in
  run.1.1 = [] /\ Id run.1.2 = "sha256:aaa".
Proof.
  intros run.
  assert (Hrun : run = (([], run.1.2), run.2)) by reflexivity.
  split; [reflexivity|].
  destruct (artifact_id_is_root_digest Demo.host Demo.clients2 _ _ _ _ Hrun)
    as (repo & src & dst & desc & fs' & Hrepo & Hsrc & Hdst & Hcopy & Hid & _).
  rewrite Hid.
  injection Hrepo as <-. injection Hsrc as <-. injection Hdst as <-.
  injection Hcopy as <- _. reflexivity.
Defined.

Lemma content_base64_decodes_to_content_witness :
  let run := dataSourceOrasArtifactFileRead Demo.host Demo.clients2
               (Demo.file_request "hello.txt") Demo.world in
  run.1.1 = []
  /\ attrs run.1.2 !! "content" = Some "hi"
  /\ attrs run.1.2 !! "content_base64" = Some "aGk="
  /\ Base64.DecodeString "aGk=" = Ok (list_byte_of_string "hi").
Proof.
  intros run.
  assert (Hrun : run = (([], run.1.2), run.2)) by reflexivity.
  destruct (content_base64_decodes_to_content Demo.host Demo.clients2 _ _ _ _ Hrun)
    as (content & content64 & Hc & Hc64 & Hdecode).
  assert (Hc' : attrs run.1.2 !! "content" = Some "hi") by reflexivity.
  assert (Hc64' : attrs run.1.2 !! "content_base64" = Some "aGk=") by reflexivity.
  split; [reflexivity|]. split; [exact Hc'|]. split; [exact Hc64'|].
  rewrite Hc' in Hc. rewrite Hc64' in Hc64.
  injection Hc as <-. injection Hc64 as <-. exact Hdecode.
Defined.

(** ** Credentials from the [registry_auth] blocks *)

Example convertToHostname_examples :
  Provider2.convertToHostname "https://index.docker.io/v1/" = "index.docker.io"
  /\ Provider2.convertToHostname "http://localhost:5000/v2" = "localhost:5000"
  /\ Provider2.convertToHostname "quay.io:8181" = "quay.io:8181"
  /\ Provider2.convertToHostname "ghcr.io/acme/app" = "ghcr.io".
Proof. repeat split; reflexivity. Qed.

Example providerSetToCredentials_example :
  match Provider2.providerSetToCredentials ConfigDemo.lib ConfigDemo.disk
    [ConfigDemo.by_file; ConfigDemo.by_content; ConfigDemo.by_password] with
  | Provider2.Done creds =>
      creds !! "registry-1.docker.io" = Some EmptyCredential
      /\ creds !! "registry.my.company.com" =
           Some {| Username := "alice"; Password := "wonderland";
                   RefreshToken := ""; AccessToken := "" |}
      /\ creds !! "quay.io:8181" =
           Some {| Username := "someuser"; Password := "somepass";
                   RefreshToken := ""; AccessToken := "" |}
      /\ creds !! "ghcr.io" = None
  | _ => False
  end.
Proof. vm_compute. repeat split. Qed.

Section Credentials.
Import Provider2.
Context (lib : ConfigLib).

(** Every iteration stores under the hostname of the block's address. *)
Lemma registryAuthCredential_hostname (fs : FS) (authMap : gmap string any)
    (hostname : string) (cred : Credential) :
  registryAuthCredential lib fs authMap = Done (hostname, cred) ->
  exists address,
    authMap !! "address" = Some (AnyString address)
    /\ hostname = convertToHostname address.
Proof.
  unfold registryAuthCredential.
  destruct (authMap !! "address") as [[address|]|]; try discriminate.
  intros Hdone. exists address. split; [reflexivity|].
  cbn [assertString mbind Run_bind] in Hdone.
  destruct (assertStringOk (authMap !! "username")) as [username ok1].
  destruct (ok1 && negb (username =? "")%string).
  { destruct (assertString (authMap !! "password")); [|discriminate..].
    now injection Hdone as <- _. }
  destruct (assertStringOk (authMap !! "config_file_content")) as [content ok2].
  destruct (ok2 && negb (content =? "")%string).
  { destruct (credentialFromContent lib _ content); [|discriminate..].
    now injection Hdone as <- _. }
  destruct (assertStringOk (authMap !! "config_file")) as [configFile ok3].
  destruct (ok3 && negb (configFile =? "")%string).
  { destruct (credentialFromFile lib fs _ configFile); [|discriminate..].
    now injection Hdone as <- _. }
  now injection Hdone as <- _.
Qed.

(** The keys of the credential map are hostnames of configured blocks. *)
Lemma providerSetToCredentials_loop_keys (fs : FS)
    (authList : list (gmap string any))
    (acc creds : gmap string Credential) (hostname : string) :
  providerSetToCredentials_loop lib fs authList acc = Done creds ->
  is_Some (creds !! hostname) ->
  is_Some (acc !! hostname)
  \/ exists authMap address,
       authMap ∈ authList
       /\ authMap !! "address" = Some (AnyString address)
       /\ convertToHostname address = hostname.
Proof.
  revert acc. induction authList as [|authMap rest IH]; intros acc.
  - intros [= <-] Hin. now left.
  - cbn [providerSetToCredentials_loop].
    destruct (registryAuthCredential lib fs authMap) as [[hn cred]| |] eqn:Hstep;
      [|discriminate..].
    cbn [mbind Run_bind]. intros Hrest Hin.
    destruct (IH _ Hrest Hin) as [Hacc|(authMap' & address & Hmem & Haddr & Hhost)].
    + destruct (decide (hn = hostname)) as [->|Hne].
      * right. destruct (registryAuthCredential_hostname _ _ _ _ Hstep)
          as (address & Haddr & ->).
        exists authMap, address. split; [apply list_elem_of_here|]. now split.
      * left. simpl in Hacc. now rewrite lookup_insert_ne in Hacc.
    + right. exists authMap', address. split; [now apply list_elem_of_further|].
      now split.
Qed.


(** C10, amended. For a [registry_auth] block whose attributes are
    strings: a non-empty [username] stores exactly [(username, password)],
    whatever [config_file_content], [config_file], the libraries and the
    disk hold; otherwise a non-empty [config_file_content] is loaded;
    otherwise a non-empty [config_file] path is loaded; a block with none
    of the three stores the empty credential.  A hostname that no block
    configures gets the empty credential and no error. *)
Theorem credential_precedence (fs : FS) (authMap : gmap string any)
    (address username password configFileContent configFile : string) :
  authMap !! "address" = Some (AnyString address) ->
  authMap !! "username" = Some (AnyString username) ->
  authMap !! "password" = Some (AnyString password) ->
  authMap !! "config_file_content" = Some (AnyString configFileContent) ->
  authMap !! "config_file" = Some (AnyString configFile) ->
  let hostname := convertToHostname address in
  let stored := registryAuthCredential lib fs authMap in
  (username <> "" ->
     stored = Done (hostname, {| Username := username; Password := password;
                                 RefreshToken := ""; AccessToken := "" |}))
  /\ (username = "" -> configFileContent <> "" ->
      stored = (cred ← credentialFromContent lib hostname configFileContent;
                Done (hostname, cred)))
  /\ (username = "" -> configFileContent = "" -> configFile <> "" ->
      stored = (cred ← credentialFromFile lib fs hostname configFile;
                Done (hostname, cred)))
  /\ (username = "" -> configFileContent = "" -> configFile = "" ->
      stored = Done (hostname, EmptyCredential))
  /\ (forall version authList creds client s,
        providerSetToCredentials lib fs authList = Done creds ->
        authClient version creds = Ok client ->
        (forall authMap' address',
           authMap' ∈ authList ->
           authMap' !! "address" = Some (AnyString address') ->
           convertToHostname address' <> convertToHostname s) ->
        ClientCredential client s = Ok EmptyCredential).
Proof.
  intros Haddress Husername Hpassword Hcontent Hfile hostname stored.
  subst hostname stored. unfold registryAuthCredential.
  rewrite Haddress, Husername, Hpassword, Hcontent, Hfile.
  cbn [assertString assertStringOk mbind Run_bind andb].
  split; [|split; [|split; [|split]]].
  - intros Hne. destruct (String.eqb_spec username ""); [contradiction|].
    reflexivity.
  - intros -> Hne. simpl.
    destruct (String.eqb_spec configFileContent ""); [contradiction|].
    reflexivity.
  - intros -> -> Hne. simpl.
    destruct (String.eqb_spec configFile ""); [contradiction|]. reflexivity.
  - intros -> -> ->. reflexivity.
  - intros version authList creds client s Hcreds [= <-] Hunconfigured. simpl.
    destruct (creds !! convertToHostname s) as [cred|] eqn:Hlookup;
      [|reflexivity].
    exfalso.
    destruct (providerSetToCredentials_loop_keys fs authList ∅ creds
                (convertToHostname s) Hcreds ltac:(eauto))
      as [[? Hempty]|(authMap' & address' & Hmem & Haddr & Hhost)].
    + rewrite lookup_empty in Hempty. discriminate.
    + exact (Hunconfigured authMap' address' Hmem Haddr Hhost).
Qed.

End Credentials.

Lemma credential_precedence_witness :
  Provider2.registryAuthCredential ConfigDemo.lib ConfigDemo.disk
    ConfigDemo.by_password
  = Provider2.Done
      ("quay.io:8181",
       {| Username := "someuser"; Password := "somepass";
          RefreshToken := ""; AccessToken := "" |})
  /\ Provider2.registryAuthCredential ConfigDemo.lib ConfigDemo.disk
       ConfigDemo.by_content
     = Provider2.Done
         ("registry.my.company.com",
          {| Username := "alice"; Password := "wonderland";
             RefreshToken := ""; AccessToken := "" |})
  /\ Provider2.registryAuthCredential ConfigDemo.lib ConfigDemo.disk
       ConfigDemo.no_source
     = Provider2.Done ("quay.io", EmptyCredential)
  /\ (forall client,
        Provider2.authClient "1.0.0"
          {[ "quay.io:8181" := {| Username := "someuser"; Password := "somepass";
                                  RefreshToken := ""; AccessToken := "" |} ]}
        = Ok client ->
        ClientCredential client "ghcr.io" = Ok EmptyCredential).
Proof.
  pose proof (credential_precedence ConfigDemo.lib ConfigDemo.disk
                ConfigDemo.by_password "quay.io:8181" "someuser" "somepass" ""
                "~/.docker/config.json" eq_refl eq_refl eq_refl eq_refl eq_refl)
    as (Hpassword & _ & _ & _ & Hlookup).
  pose proof (credential_precedence ConfigDemo.lib ConfigDemo.disk
                ConfigDemo.by_content "registry.my.company.com" "" "" "{ }"
                "~/.docker/config.json" eq_refl eq_refl eq_refl eq_refl eq_refl)
    as (_ & Hcontent & _).
  pose proof (credential_precedence ConfigDemo.lib ConfigDemo.disk
                ConfigDemo.no_source "quay.io" "" "" "" ""
                eq_refl eq_refl eq_refl eq_refl eq_refl)
    as (_ & _ & _ & Hnone & _).
  split; [apply Hpassword; discriminate|].
  split; [rewrite Hcontent by (reflexivity || discriminate); reflexivity|].
  split; [apply Hnone; reflexivity|].
  intros client Hclient.
  apply (Hlookup "1.0.0" [ConfigDemo.by_password]
           {[ "quay.io:8181" := {| Username := "someuser"; Password := "somepass";
                                   RefreshToken := ""; AccessToken := "" |} ]}
           client "ghcr.io");
    [vm_compute; reflexivity | exact Hclient |].
  intros authMap' address' Hmem Haddr.
  apply list_elem_of_singleton in Hmem as ->.
  vm_compute in Haddr. injection Haddr as <-. vm_compute. discriminate.
Defined.

(** C10 as stated fails: a block whose [username],
    [config_file_content] and [config_file] are all empty stores the
    empty credential without opening any file, whereas loading the path
    [""] fails. *)
Lemma precedence_as_stated_fails :
  ~ precedence_as_stated ConfigDemo.lib ConfigDemo.disk
      ConfigDemo.no_source.
Proof.
  intros Hstated.
  destruct (Hstated "quay.io" "" "" "" ""
              eq_refl eq_refl eq_refl eq_refl eq_refl) as (_ & _ & Hfile).
  specialize (Hfile eq_refl eq_refl). vm_compute in Hfile. discriminate Hfile.
Qed.

(** * Further properties of the provider's code *)

(** ** More on the string helpers and on plain HTTP *)

Section MoreStringFacts.
Import GoStrings.

Lemma IndexByte_absent_last (s : string) (c : ascii) :
  IndexByte s c < 0 -> LastIndexByte s c = -1.
Proof.
  induction s as [|a s IH]; simpl; [reflexivity|].
  destruct (Ascii.eqb a c); [lia|].
  destruct (Z.ltb_spec (IndexByte s c) 0) as [Hs|Hs]; [|pose proof (IndexByte_lower s c); lia].
  intros _. rewrite (IH Hs). reflexivity.
Qed.

Lemma IndexByte_cons_absent (a c : ascii) (s : string) :
  IndexByte (String a s) c < 0 <-> a <> c /\ IndexByte s c < 0.
Proof.
  simpl. pose proof (IndexByte_lower s c).
  destruct (Ascii.eqb_spec a c) as [->|Hne].
  - split; [lia|]. intros [Hne _]. congruence.
  - destruct (Z.ltb_spec (IndexByte s c) 0); split.
    + intros _. split; [exact Hne|assumption].
    + lia.
    + lia.
    + intros [_ ?]. lia.
Qed.

Lemma IndexByte_LastIndexByte (s : string) (c : ascii) :
  0 <= IndexByte s c -> 0 <= LastIndexByte s c.
Proof.
  induction s as [|a s IH]; simpl; [lia|].
  pose proof (LastIndexByte_lower s c).
  destruct (Z.leb_spec 0 (LastIndexByte s c)); [lia|].
  destruct (Ascii.eqb a c); [lia|].
  destruct (Z.ltb_spec (IndexByte s c) 0); lia.
Qed.

Lemma slice_from_cons (a : ascii) (s : string) (i : Z) :
  0 <= i -> slice_from (String a s) (i + 1) = slice_from s i.
Proof.
  intros Hi. unfold slice_from, slice, len. cbn [String.length].
  rewrite Nat2Z.inj_succ.
  replace (Z.to_nat (i + 1)) with (S (Z.to_nat i)) by lia.
  replace (Z.to_nat (Z.succ (Z.of_nat (String.length s)) - (i + 1)))
    with (Z.to_nat (Z.of_nat (String.length s) - i)) by lia.
  reflexivity.
Qed.

(** Splitting a string at the last occurrence of a byte. *)
Lemma LastIndexByte_split (s : string) (c : ascii) :
  0 <= LastIndexByte s c ->
  s = slice s 0 (LastIndexByte s c)
        +:+ String c (slice_from s (LastIndexByte s c + 1))
  /\ IndexByte (slice_from s (LastIndexByte s c + 1)) c < 0.
Proof.
  induction s as [|a s IH]; simpl; [lia|].
  destruct (Z.leb_spec 0 (LastIndexByte s c)) as [Hl|Hl].
  - intros _. destruct (IH Hl) as [Heq Habs].
    rewrite slice_cons_0 by assumption.
    rewrite slice_from_cons by lia.
    split; [|exact Habs].
    change (String a s = String a (slice s 0 (LastIndexByte s c)
                                   +:+ String c (slice_from s (LastIndexByte s c + 1)))).
    f_equal. exact Heq.
  - destruct (Ascii.eqb_spec a c) as [->|Hne]; [|lia]. intros _.
    rewrite slice_from_cons, slice_from_0 by lia.
    split; [reflexivity|].
    pose proof (IndexByte_LastIndexByte s c). lia.
Qed.

(** Splitting a string at the first occurrence of a byte. *)
Lemma IndexByte_split (s : string) (c : ascii) :
  0 <= IndexByte s c ->
  s = slice s 0 (IndexByte s c) +:+ String c (slice_from s (IndexByte s c + 1))
  /\ IndexByte (slice s 0 (IndexByte s c)) c < 0.
Proof.
  induction s as [|a s IH]; simpl; [lia|].
  destruct (Ascii.eqb_spec a c) as [->|Hne].
  - intros _. rewrite slice_from_cons, slice_from_0 by lia.
    split; [reflexivity|]. unfold slice. simpl. lia.
  - destruct (Z.ltb_spec (IndexByte s c) 0) as [Hs|Hs]; [lia|]. intros _.
    destruct (IH Hs) as [Heq Habs].
    rewrite slice_cons_0, slice_from_cons by lia. split.
    + change (String a s = String a (slice s 0 (IndexByte s c)
                                     +:+ String c (slice_from s (IndexByte s c + 1)))).
      f_equal. exact Heq.
    + apply IndexByte_cons_absent. split; assumption.
Qed.

Lemma IndexByte_app_absent (p s : string) (c : ascii) :
  IndexByte (p +:+ s) c < 0 <-> IndexByte p c < 0 /\ IndexByte s c < 0.
Proof.
  induction p as [|a p IH].
  - simpl. split; [intros; split; [lia|assumption]|intros [_ ?]; assumption].
  - change (String a p +:+ s) with (String a (p +:+ s)).
    rewrite !IndexByte_cons_absent, IH. tauto.
Qed.


Lemma SplitHostPort_localhost (port : string) :
  IndexByte port ":" < 0 -> IndexByte port "[" < 0 -> IndexByte port "]" < 0 ->
  GoNet.SplitHostPort ("localhost:" +:+ port) = ("localhost", port, None)
  /\ GoNet.SplitHostPort ("[localhost]:" +:+ port) = ("localhost", port, None).
Proof.
  intros Hc Ho Hb.
  pose proof (IndexByte_absent_last port ":" Hc) as Hlast.
  assert (Ho' : (IndexByte port "[" <? 0) = true) by (apply Z.ltb_lt; assumption).
  assert (Hb' : (IndexByte port "]" <? 0) = true) by (apply Z.ltb_lt; assumption).
  split.
  - unfold GoNet.SplitHostPort.
    assert (Hi : LastIndexByte ("localhost:" +:+ port) ":" = 9).
    { cbv [append]. cbn [LastIndexByte]. rewrite Hlast. reflexivity. }
    rewrite Hi. cbn [Z.ltb Z.compare].
    change (head_byte ("localhost:" +:+ port)) with "l"%char.
    cbn [Ascii.eqb Bool.eqb].
    change (slice ("localhost:" +:+ port) 0 9) with "localhost".
    change (0 <=? IndexByte "localhost" ":") with false. cbv iota.
    rewrite slice_from_0.
    assert (Hopen : IndexByte ("localhost:" +:+ port) "[" = -1).
    { cbv [append]. cbn [IndexByte Ascii.eqb Bool.eqb]. rewrite Ho'. reflexivity. }
    assert (Hclose : IndexByte ("localhost:" +:+ port) "]" = -1).
    { cbv [append]. cbn [IndexByte Ascii.eqb Bool.eqb]. rewrite Hb'. reflexivity. }
    rewrite Hopen, Hclose. cbn [Z.leb Z.compare].
    change (9 + 1) with (0 + 1 + 1 + 1 + 1 + 1 + 1 + 1 + 1 + 1 + 1).
    cbv [append]. rewrite !slice_from_cons by lia.
    rewrite slice_from_0. reflexivity.
  - unfold GoNet.SplitHostPort.
    assert (Hi : LastIndexByte ("[localhost]:" +:+ port) ":" = 11).
    { cbv [append]. cbn [LastIndexByte]. rewrite Hlast. reflexivity. }
    rewrite Hi. cbn [Z.ltb Z.compare].
    change (head_byte ("[localhost]:" +:+ port)) with "["%char.
    cbn [Ascii.eqb Bool.eqb].
    assert (Hend : IndexByte ("[localhost]:" +:+ port) "]" = 10) by reflexivity.
    rewrite Hend. cbn [Z.ltb Z.compare].
    assert (Hlen : (10 + 1 =? len ("[localhost]:" +:+ port)) = false).
    { apply Z.eqb_neq. unfold len. cbv [append]. cbn [String.length]. lia. }
    rewrite Hlen. change (10 + 1 =? 11) with true. cbv iota.
    change (slice ("[localhost]:" +:+ port) 1 10) with "localhost".
    assert (Hopen : IndexByte (slice_from ("[localhost]:" +:+ port) 1) "[" = -1).
    { cbv [append]. change 1 with (0 + 1). rewrite slice_from_cons by lia.
      rewrite slice_from_0.
      cbn [IndexByte Ascii.eqb Bool.eqb]. rewrite Ho'. reflexivity. }
    assert (Htail : slice_from ("[localhost]:" +:+ port) (10 + 1) = String ":" port).
    { change (10 + 1) with (0 + 1 + 1 + 1 + 1 + 1 + 1 + 1 + 1 + 1 + 1 + 1).
      cbv [append]. rewrite !slice_from_cons by lia.
      apply slice_from_0. }
    assert (Hport : slice_from ("[localhost]:" +:+ port) (11 + 1) = port).
    { change (11 + 1) with (0 + 1 + 1 + 1 + 1 + 1 + 1 + 1 + 1 + 1 + 1 + 1 + 1).
      cbv [append]. rewrite !slice_from_cons by lia.
      apply slice_from_0. }
    rewrite Hopen, Htail, Hport.
    cbn [IndexByte Ascii.eqb Bool.eqb]. rewrite Hb'. reflexivity.
Qed.


Lemma slice_through_IndexByte (s : string) (c : ascii) :
  0 <= IndexByte s c ->
  slice s 0 (IndexByte s c + 1) = slice s 0 (IndexByte s c) +:+ String c "".
Proof.
  induction s as [|a s IH]; simpl; [lia|].
  destruct (Ascii.eqb_spec a c) as [->|Hne].
  { intros _. unfold slice. simpl. now destruct s. }
  destruct (Z.ltb_spec (IndexByte s c) 0) as [Hs|Hs]; [lia|]. intros _.
  rewrite !slice_cons_0 by lia. rewrite (IH Hs). reflexivity.
Qed.

Lemma append_inv_head (p a b : string) : p +:+ a = p +:+ b -> a = b.
Proof.
  induction p as [|x p IH]; [trivial|].
  change (String x (p +:+ a) = String x (p +:+ b) -> a = b).
  intros [= H]. exact (IH H).
Qed.

Lemma append_assoc (a b c : string) : (a +:+ b) +:+ c = a +:+ (b +:+ c).
Proof.
  induction a as [|x a IH]; [reflexivity|].
  change (String x ((a +:+ b) +:+ c) = String x (a +:+ (b +:+ c))).
  now rewrite IH.
Qed.

(** A result of [SplitHostPort] with a non-empty host comes from
    [host:port] or [[host]:port], with a port free of colons and
    brackets. *)
Lemma SplitHostPort_shape (r host port : string) (err : option error) :
  GoNet.SplitHostPort r = (host, port, err) -> host <> "" ->
  IndexByte port ":" < 0 /\ IndexByte port "[" < 0 /\ IndexByte port "]" < 0
  /\ (r = host +:+ String ":" port
      \/ r = String "[" (host +:+ String "]" (String ":" port))).
Proof.
  intros E Hhost. unfold GoNet.SplitHostPort in E.
  destruct (Z.ltb_spec (LastIndexByte r ":") 0) as [Hi|Hi];
    [injection E as <- _ _; contradiction|].
  destruct (LastIndexByte_split r ":" Hi) as [Hsplit Hport].
  destruct (Ascii.eqb_spec (head_byte r) "[") as [Hb|Hb].
  - destruct (Z.ltb_spec (IndexByte r "]") 0) as [He|He];
      [injection E as <- _ _; contradiction|].
    destruct (IndexByte r "]" + 1 =? len r);
      [injection E as <- _ _; contradiction|].
    destruct (Z.eqb_spec (IndexByte r "]" + 1) (LastIndexByte r ":")) as [Hei|];
      [|destruct (Ascii.eqb _ _); injection E as <- _ _; contradiction].
    destruct (Z.leb_spec 0 (IndexByte (slice_from r 1) "[")) as [|Hopen];
      [injection E as <- _ _; contradiction|].
    destruct (Z.leb_spec 0 (IndexByte (slice_from r (IndexByte r "]" + 1)) "]"))
      as [|Hclose]; [injection E as <- _ _; contradiction|].
    injection E as <- <- _.
    destruct (IndexByte_split r "]" He) as [Hsplit' _].
    pose proof (slice_through_IndexByte r "]" He) as Hthrough.
    rewrite <- Hei in Hsplit, Hport |- *. rewrite Hthrough in Hsplit.
    rewrite append_assoc in Hsplit.
    assert (Htail : slice_from r (IndexByte r "]" + 1)
                    = String ":" (slice_from r (IndexByte r "]" + 1 + 1))).
    { rewrite Hsplit' in Hsplit at 1. apply append_inv_head in Hsplit.
      now injection Hsplit. }
    rewrite Htail in Hclose. apply IndexByte_cons_absent in Hclose as [_ Hclose].
    destruct r as [|a r']; [discriminate|]. simpl in Hb. subst a.
    assert (He' : 0 <= IndexByte r' "]").
    { simpl in He. destruct (Z.ltb_spec (IndexByte r' "]") 0); lia. }
    assert (Hidx : IndexByte (String "[" r') "]" = IndexByte r' "]" + 1).
    { simpl. destruct (Z.ltb_spec (IndexByte r' "]") 0); lia. }
    rewrite Hidx in *. rewrite slice_cons_1 by assumption.
    rewrite slice_cons_0 in Hsplit by assumption.
    change (String "[" r' = String "[" (slice r' 0 (IndexByte r' "]")
              +:+ String "]" (String ":" (slice_from (String "[" r')
                                            (IndexByte r' "]" + 1 + 1 + 1)))))
      in Hsplit.
    injection Hsplit as Hr'.
    change 1 with (0 + 1) in Hopen. rewrite slice_from_cons, slice_from_0 in Hopen by lia.
    rewrite Hr' in Hopen. apply IndexByte_app_absent in Hopen as [_ Hopen].
    apply IndexByte_cons_absent in Hopen as [_ Hopen].
    apply IndexByte_cons_absent in Hopen as [_ Hopen].
    repeat split; try assumption. right. f_equal. exact Hr'.
  - destruct (Z.leb_spec 0 (IndexByte (slice r 0 (LastIndexByte r ":")) ":"))
      as [?|Hone]; [injection E as <- _ _; contradiction|].
    rewrite slice_from_0 in E.
    destruct (Z.leb_spec 0 (IndexByte r "[")) as [|Hopen];
      [injection E as <- _ _; contradiction|].
    destruct (Z.leb_spec 0 (IndexByte r "]")) as [|Hclose];
      [injection E as <- _ _; contradiction|].
    injection E as <- <- _.
    rewrite Hsplit in Hopen, Hclose.
    apply IndexByte_app_absent in Hopen as [_ Hopen].
    apply IndexByte_cons_absent in Hopen as [_ Hopen].
    apply IndexByte_app_absent in Hclose as [_ Hclose].
    apply IndexByte_cons_absent in Hclose as [_ Hclose].
    repeat split; try assumption. left. exact Hsplit.
Qed.


(** The registry strings on which [isPlainHttp] answers [true]. *)
Lemma isPlainHttp_shapes (c : Provider.clients) (r : string) :
  Provider.isPlainHttp c r = true <->
  (r = "localhost"
   \/ exists port,
        IndexByte port ":" < 0 /\ IndexByte port "[" < 0 /\ IndexByte port "]" < 0
        /\ (r = "localhost:" +:+ port \/ r = "[localhost]:" +:+ port)).
Proof.
  split.
  - unfold Provider.isPlainHttp.
    destruct (GoNet.SplitHostPort r) as [[host port] err] eqn:E.
    destruct (String.eqb_spec r "localhost") as [->|Hr]; [now left|].
    rewrite orb_false_r.
    destruct (String.eqb_spec host "localhost") as [->|Hh];
      [intros _|discriminate].
    right. exists port.
    destruct (SplitHostPort_shape r "localhost" port err E ltac:(discriminate))
      as (Hc & Ho & Hb & Hshape).
    repeat split; try assumption.
  - unfold Provider.isPlainHttp.
    intros [->|(port & Hc & Ho & Hb & [->| ->])]; [reflexivity| |].
    + destruct (SplitHostPort_localhost port Hc Ho Hb) as [-> _]. reflexivity.
    + destruct (SplitHostPort_localhost port Hc Ho Hb) as [_ ->]. reflexivity.
Qed.

(** X1. [isPlainHttp] answers [true] for exactly three shapes of registry
    string: [localhost], [localhost:port] and [[localhost]:port], where
    the port is any text (possibly empty) without colon or square
    bracket. *)
Theorem isPlainHttp_exactly (c : Provider.clients) (r : string) :
  Provider.isPlainHttp c r = true <->
  (r = "localhost"
   \/ exists port,
        IndexByte port ":" < 0 /\ IndexByte port "[" < 0 /\ IndexByte port "]" < 0
        /\ (r = "localhost:" +:+ port \/ r = "[localhost]:" +:+ port)).
Proof. exact (isPlainHttp_shapes c r). Qed.

End MoreStringFacts.

Lemma isPlainHttp_exactly_witness :
  Provider.isPlainHttp Demo.clients1 "localhost:5000" = true
  /\ Provider.isPlainHttp Demo.clients1 "[localhost]:" = true
  /\ Provider.isPlainHttp Demo.clients1 "localhost.example.com:5000" <> true.
Proof.
  split; [|split].
  - apply isPlainHttp_exactly. right. exists "5000".
    repeat split; try reflexivity. now left.
  - apply isPlainHttp_exactly. right. exists "".
    repeat split; try reflexivity. now right.
  - intros Htrue. apply isPlainHttp_exactly in Htrue
      as [Heq|(port & _ & _ & _ & [Heq|Heq])]; discriminate Heq.
Defined.

(** ** Building repositories *)

Section Repositories.
Import GoStrings.

(** X2. In [provider.go], [NewRepository] fails exactly when the
    reference does not parse or, for a reference that parses, when the
    credential store cannot be opened, and it returns that error.  A
    repository it returns keeps the parsed reference, carries the auth
    client built for the reference's registry, announcing the provider's
    version, and has plain HTTP on exactly for the three [localhost]
    shapes of the registry. *)
Theorem NewRepository_outcome (h : Host) (c : Provider.clients)
    (reference : string) :
  (forall repo,
     Provider.NewRepository h c reference = Ok repo ->
     exists client,
       remote_ParseReference h reference = Ok (RepoReference repo)
       /\ Client repo = Some client
       /\ Provider.authClient h c (Registry (RepoReference repo)) = Ok client
       /\ UserAgent client = "terraform-provider-oras/" +:+ Provider.version c
       /\ (PlainHTTP repo = true <->
           (Registry (RepoReference repo) = "localhost"
            \/ exists port,
                 IndexByte port ":" < 0 /\ IndexByte port "[" < 0
                 /\ IndexByte port "]" < 0
                 /\ (Registry (RepoReference repo) = "localhost:" +:+ port
                     \/ Registry (RepoReference repo) = "[localhost]:" +:+ port))))
  /\ (forall e,
        Provider.NewRepository h c reference = Err e <->
        (remote_ParseReference h reference = Err e
         \/ exists ref,
              remote_ParseReference h reference = Ok ref
              /\ credential_NewStore h = Err e)).
Proof.
  unfold Provider.NewRepository, remote_NewRepository, Provider.authClient.
  destruct (remote_ParseReference h reference) as [ref|e0]; simpl.
  - destruct (credential_NewStore h) as [store|e1]; split.
    + intros repo [= <-]. simpl. eexists. split; [reflexivity|].
      split; [reflexivity|]. split; [reflexivity|]. split; [reflexivity|].
      apply isPlainHttp_shapes.
    + intros e. split; [discriminate|].
      intros [?|(ref' & _ & ?)]; discriminate.
    + intros repo. discriminate.
    + intros e. split.
      * intros [= <-]. right. now exists ref.
      * intros [?|(ref' & _ & [= <-])]; [discriminate|reflexivity].
  - split; [intros repo; discriminate|].
    intros e. split.
    + intros [= <-]. now left.
    + intros [[= <-]|(ref' & ? & _)]; [reflexivity|discriminate].
Qed.

(** In the later revision, [NewRepository] fails exactly when the
    reference does not parse.  Every repository it returns shares the one
    auth client of the provider and never has plain HTTP on, whatever the
    registry, [localhost] included. *)
Lemma NewRepository_shares_client (h : Host) (c : Provider2.clients)
    (reference : string) :
  (forall repo,
     Provider2.NewRepository h c reference = Ok repo ->
     remote_ParseReference h reference = Ok (RepoReference repo)
     /\ Client repo = Some (Provider2.client c)
     /\ PlainHTTP repo = false)
  /\ (forall e,
        Provider2.NewRepository h c reference = Err e <->
        remote_ParseReference h reference = Err e).
Proof.
  unfold Provider2.NewRepository, remote_NewRepository.
  destruct (remote_ParseReference h reference) as [ref|e0]; simpl; split.
  - intros repo [= <-]. repeat split.
  - intros e. split; discriminate.
  - intros repo. discriminate.
  - intros e. split; intros [= <-]; reflexivity.
Qed.

End Repositories.

Lemma NewRepository_outcome_witness :
  exists repo,
    Provider.NewRepository DemoLocal.host Demo.clients1
      "localhost:5000/acme/app:v1" = Ok repo
    /\ PlainHTTP repo = true
    /\ exists client,
         Client repo = Some client
         /\ UserAgent client = "terraform-provider-oras/1.0.0".
Proof.
  eexists. split; [reflexivity|].
  destruct (NewRepository_outcome DemoLocal.host Demo.clients1
              "localhost:5000/acme/app:v1") as [Hok _].
  destruct (Hok _ eq_refl) as (client & _ & Hclient & _ & Hagent & Hplain).
  split.
  - apply Hplain. right. exists "5000".
    repeat split; try (vm_compute; reflexivity). now left.
  - exists client. split; [exact Hclient|exact Hagent].
Defined.

Example NewRepository_localhost_later :
  exists repo,
    Provider2.NewRepository DemoLocal.host Demo.clients2
      "localhost:5000/acme/app:v1" = Ok repo
    /\ Registry (RepoReference repo) = "localhost:5000"
    /\ PlainHTTP repo = false
    /\ Client repo = Some (Provider2.client Demo.clients2).
Proof.
  eexists. split; [reflexivity|].
  destruct (NewRepository_shares_client DemoLocal.host Demo.clients2
              "localhost:5000/acme/app:v1") as [Hok _].
  destruct (Hok _ eq_refl) as (_ & Hclient & Hplain).
  split; [reflexivity|]. split; [exact Hplain|exact Hclient].
Qed.

(** ** Hostnames of registry addresses *)

Section Hostnames.
Import GoStrings Provider2.

Lemma prefix_split (p s : string) :
  String.prefix p s = true -> s = p +:+ slice_from s (len p).
Proof.
  revert s. induction p as [|a p IH]; intros s.
  - intros _. now rewrite slice_from_0.
  - destruct s as [|b s]; [discriminate|]. simpl.
    destruct (ascii_dec a b) as [->|]; [|discriminate].
    intros Hp. unfold len. cbn [String.length]. rewrite Nat2Z.inj_succ.
    rewrite <- Z.add_1_r. rewrite slice_from_cons by lia.
    change (String b s = String b (p +:+ slice_from s (len p))).
    f_equal. exact (IH s Hp).
Qed.

Lemma prefix_append (p s : string) : String.prefix p (p +:+ s) = true.
Proof.
  induction p as [|a p IH]; [now destruct s|].
  change (String a p +:+ s) with (String a (p +:+ s)). simpl.
  destruct (ascii_dec a a); [exact IH|congruence].
Qed.

Lemma slice_from_append (p s : string) : slice_from (p +:+ s) (len p) = s.
Proof.
  induction p as [|a p IH]; [apply slice_from_0|].
  change (String a p +:+ s) with (String a (p +:+ s)).
  unfold len at 1. cbn [String.length]. rewrite Nat2Z.inj_succ, <- Z.add_1_r.
  rewrite slice_from_cons by lia. exact IH.
Qed.

Lemma slice_append (p s : string) : slice (p +:+ s) 0 (len p) = p.
Proof.
  induction p as [|a p IH].
  - unfold slice. simpl. now destruct s.
  - change (String a p +:+ s) with (String a (p +:+ s)).
    unfold len. cbn [String.length]. rewrite Nat2Z.inj_succ, <- Z.add_1_r.
    rewrite slice_cons_0 by lia. fold (len p). now rewrite IH.
Qed.

Lemma IndexByte_append_first (p s : string) (c : ascii) :
  IndexByte p c < 0 -> IndexByte (p +:+ String c s) c = len p.
Proof.
  induction p as [|a p IH].
  - intros _. simpl. now rewrite Ascii.eqb_refl.
  - intros Habs. apply IndexByte_cons_absent in Habs as [Hne Habs].
    change (String a p +:+ String c s) with (String a (p +:+ String c s)).
    simpl. destruct (Ascii.eqb_spec a c); [contradiction|].
    rewrite (IH Habs). unfold len. cbn [String.length].
    destruct (Z.ltb_spec (Z.of_nat (String.length p)) 0); lia.
Qed.

(** The first part of a split holds no separator. *)
Lemma SplitN2_first_absent (s : string) (sep : ascii) :
  IndexByte (SplitN2_first s sep) sep < 0.
Proof.
  unfold SplitN2_first.
  destruct (Z.ltb_spec (IndexByte s sep) 0) as [Hs|Hs]; [exact Hs|].
  apply IndexByte_split. exact Hs.
Qed.

Lemma SplitN2_first_id (s : string) (sep : ascii) :
  IndexByte s sep < 0 -> SplitN2_first s sep = s.
Proof.
  intros Hs. unfold SplitN2_first.
  destruct (Z.ltb_spec (IndexByte s sep) 0); [reflexivity|lia].
Qed.

Lemma SplitN2_first_append (host rest : string) (sep : ascii) :
  IndexByte host sep < 0 ->
  SplitN2_first (host +:+ String sep rest) sep = host.
Proof.
  intros Hh. unfold SplitN2_first. rewrite (IndexByte_append_first _ _ _ Hh).
  destruct (Z.ltb_spec (len host) 0) as [Hneg|_]; [unfold len in Hneg; lia|].
  apply slice_append.
Qed.

(** A string without a slash starts with neither scheme. *)
Lemma no_slash_no_scheme (s : string) :
  IndexByte s "/" < 0 ->
  HasPrefix s "http://" = false /\ HasPrefix s "https://" = false.
Proof.
  intros Hs. unfold HasPrefix. split.
  - destruct (String.prefix "http://" s) eqn:Hp; [|reflexivity].
    apply prefix_split in Hp. rewrite Hp in Hs.
    apply IndexByte_app_absent in Hs as [Hs _]. vm_compute in Hs. discriminate.
  - destruct (String.prefix "https://" s) eqn:Hp; [|reflexivity].
    apply prefix_split in Hp. rewrite Hp in Hs.
    apply IndexByte_app_absent in Hs as [Hs _]. vm_compute in Hs. discriminate.
Qed.

Lemma convertToHostname_no_slash (url : string) :
  IndexByte (convertToHostname url) "/" < 0.
Proof. unfold convertToHostname. apply SplitN2_first_absent. Qed.

Lemma convertToHostname_fixed (host : string) :
  IndexByte host "/" < 0 -> convertToHostname host = host.
Proof.
  intros Hh. destruct (no_slash_no_scheme host Hh) as [H1 H2].
  unfold convertToHostname. rewrite H1, H2. now apply SplitN2_first_id.
Qed.

(** X3. The hostname [convertToHostname] returns never holds a slash and
    starts with neither [http://] nor [https://]; converting it again
    changes nothing. *)
Theorem convertToHostname_idempotent (url : string) :
  IndexByte (convertToHostname url) "/" < 0
  /\ HasPrefix (convertToHostname url) "http://" = false
  /\ HasPrefix (convertToHostname url) "https://" = false
  /\ convertToHostname (convertToHostname url) = convertToHostname url.
Proof.
  pose proof (convertToHostname_no_slash url) as Hs.
  destruct (no_slash_no_scheme _ Hs) as [H1 H2].
  repeat split; try assumption. now apply convertToHostname_fixed.
Qed.

Lemma convertToHostname_http (rest : string) :
  convertToHostname ("http://" +:+ rest) = SplitN2_first rest "/".
Proof.
  unfold convertToHostname, TrimPrefix, HasPrefix.
  rewrite (prefix_append "http://" rest).
  change (len "http://") with (len "http://").
  now rewrite slice_from_append.
Qed.

Lemma convertToHostname_https (rest : string) :
  convertToHostname ("https://" +:+ rest) = SplitN2_first rest "/".
Proof.
  unfold convertToHostname, TrimPrefix, HasPrefix.
  assert (Hno : String.prefix "http://" ("https://" +:+ rest) = false)
    by reflexivity.
  rewrite Hno, (prefix_append "https://" rest).
  now rewrite slice_from_append.
Qed.

(** An address without scheme whose first slash comes after [host]. *)
Lemma convertToHostname_plain (host rest : string) :
  IndexByte host "/" < 0 -> host <> "http:" -> host <> "https:" ->
  convertToHostname (host +:+ String "/" rest) = host.
Proof.
  intros Hh Hhttp Hhttps. unfold convertToHostname, HasPrefix.
  assert (Hfirst := IndexByte_append_first host rest "/" Hh).
  destruct (String.prefix "http://" (host +:+ String "/" rest)) eqn:Hp1.
  { exfalso. apply Hhttp. apply prefix_split in Hp1.
    assert (Hidx : IndexByte (host +:+ String "/" rest) "/" = 5)
      by (rewrite Hp1; reflexivity).
    rewrite Hidx in Hfirst.
    rewrite <- (slice_append host (String "/" rest)), <- Hfirst.
    rewrite Hp1. reflexivity. }
  destruct (String.prefix "https://" (host +:+ String "/" rest)) eqn:Hp2.
  { exfalso. apply Hhttps. apply prefix_split in Hp2.
    assert (Hidx : IndexByte (host +:+ String "/" rest) "/" = 6)
      by (rewrite Hp2; reflexivity).
    rewrite Hidx in Hfirst.
    rewrite <- (slice_append host (String "/" rest)), <- Hfirst.
    rewrite Hp2. reflexivity. }
  now apply SplitN2_first_append.
Qed.

(** X4. Scheme and path do not matter to [convertToHostname]: for a
    [host] without slash, the addresses [host], [http://host],
    [https://host] and each of them followed by [/path] all give [host];
    for the form without scheme this needs [host] to be neither [http:]
    nor [https:], since [http:] followed by [//x] reads as a scheme. *)
Theorem convertToHostname_scheme_and_path (host path : string) :
  IndexByte host "/" < 0 ->
  convertToHostname host = host
  /\ convertToHostname ("http://" +:+ host) = host
  /\ convertToHostname ("https://" +:+ host) = host
  /\ convertToHostname ("http://" +:+ host +:+ String "/" path) = host
  /\ convertToHostname ("https://" +:+ host +:+ String "/" path) = host
  /\ (host <> "http:" -> host <> "https:" ->
      convertToHostname (host +:+ String "/" path) = host)
  /\ convertToHostname ("http:" +:+ String "/" (String "/" path))
       = SplitN2_first path "/".
Proof.
  intros Hh.
  split; [now apply convertToHostname_fixed|].
  split; [rewrite convertToHostname_http; now apply SplitN2_first_id|].
  split; [rewrite convertToHostname_https; now apply SplitN2_first_id|].
  split; [rewrite convertToHostname_http; now apply SplitN2_first_append|].
  split; [rewrite convertToHostname_https; now apply SplitN2_first_append|].
  split; [now apply convertToHostname_plain|].
  exact (convertToHostname_http path).
Qed.

End Hostnames.

Lemma convertToHostname_idempotent_witness :
  Provider2.convertToHostname
    (Provider2.convertToHostname "https://quay.io/v2/") = "quay.io".
Proof.
  destruct (convertToHostname_idempotent "https://quay.io/v2/")
    as (_ & _ & _ & Hagain).
  rewrite Hagain. reflexivity.
Defined.

Lemma convertToHostname_scheme_and_path_witness :
  Provider2.convertToHostname "quay.io:8181" = "quay.io:8181"
  /\ Provider2.convertToHostname "https://quay.io:8181/v2/" = "quay.io:8181"
  /\ Provider2.convertToHostname "quay.io:8181/acme/app" = "quay.io:8181".
Proof.
  assert (Hno : GoStrings.IndexByte "quay.io:8181" "/" < 0) by reflexivity.
  destruct (convertToHostname_scheme_and_path "quay.io:8181" "v2/" Hno)
    as (Hplain & _ & _ & _ & Hhttps & _).
  destruct (convertToHostname_scheme_and_path "quay.io:8181" "acme/app" Hno)
    as (_ & _ & _ & _ & _ & Hpath & _).
  split; [exact Hplain|]. split; [exact Hhttps|].
  apply Hpath; discriminate.
Defined.

(** ** The credential table of the [registry_auth] blocks *)

Section CredentialTable.
Import GoStrings Provider2.
Context (lib : ConfigLib).

(** A block was processed: its iteration stored a credential. *)
Local Abbreviation processed fs authMap :=
  (exists hc, registryAuthCredential lib fs authMap = Done hc).

Lemma providerSetToCredentials_loop_app (fs : FS)
    (l1 l2 : list (gmap string any)) (acc : gmap string Credential) :
  providerSetToCredentials_loop lib fs (l1 ++ l2)%list acc
  = (creds ← providerSetToCredentials_loop lib fs l1 acc;
     providerSetToCredentials_loop lib fs l2 creds).
Proof.
  revert acc. induction l1 as [|b l1 IH]; intros acc; [reflexivity|].
  cbn [app providerSetToCredentials_loop].
  destruct (registryAuthCredential lib fs b) as [hc| |]; [|reflexivity..].
  cbn [mbind Run_bind]. apply IH.
Qed.

(** Hostnames no block names keep the entry they had. *)
Lemma providerSetToCredentials_loop_frame (fs : FS)
    (authList : list (gmap string any))
    (acc creds : gmap string Credential) (hostname : string) :
  providerSetToCredentials_loop lib fs authList acc = Done creds ->
  (forall authMap address,
     authMap ∈ authList ->
     authMap !! "address" = Some (AnyString address) ->
     convertToHostname address <> hostname) ->
  creds !! hostname = acc !! hostname.
Proof.
  revert acc. induction authList as [|b rest IH]; intros acc.
  - now intros [= <-] _.
  - cbn [providerSetToCredentials_loop].
    destruct (registryAuthCredential lib fs b) as [[hn cred]| |] eqn:Hstep;
      [|discriminate..].
    cbn [mbind Run_bind]. intros Hrest Hother.
    rewrite (IH _ Hrest).
    + simpl. apply lookup_insert_ne.
      destruct (registryAuthCredential_hostname lib _ _ _ _ Hstep)
        as (address & Haddr & ->).
      apply (Hother b address); [apply list_elem_of_here|exact Haddr].
    + intros authMap address Hmem. apply Hother. now apply list_elem_of_further.
Qed.

(** The table is returned only when every block was processed. *)
Lemma providerSetToCredentials_loop_all (fs : FS)
    (authList : list (gmap string any))
    (acc creds : gmap string Credential) :
  providerSetToCredentials_loop lib fs authList acc = Done creds ->
  Forall (fun authMap => processed fs authMap) authList.
Proof.
  revert acc. induction authList as [|b rest IH]; intros acc; [constructor|].
  cbn [providerSetToCredentials_loop].
  destruct (registryAuthCredential lib fs b) as [hc| |] eqn:Hstep;
    [|discriminate..].
  cbn [mbind Run_bind]. intros Hrest. constructor; [eauto|exact (IH _ Hrest)].
Qed.

(** Entries are never dropped. *)
Lemma providerSetToCredentials_loop_keeps (fs : FS)
    (authList : list (gmap string any))
    (acc creds : gmap string Credential) (hostname : string) :
  providerSetToCredentials_loop lib fs authList acc = Done creds ->
  is_Some (acc !! hostname) -> is_Some (creds !! hostname).
Proof.
  revert acc. induction authList as [|b rest IH]; intros acc.
  - now intros [= <-].
  - cbn [providerSetToCredentials_loop].
    destruct (registryAuthCredential lib fs b) as [[hn cred]| |]; [|discriminate..].
    cbn [mbind Run_bind]. intros Hrest Hin. apply (IH _ Hrest). simpl.
    rewrite lookup_insert. case_decide; [eauto|exact Hin].
Qed.

(** When every block of a list is processed, so is the list. *)
Lemma providerSetToCredentials_loop_total (fs : FS)
    (authList : list (gmap string any)) (acc : gmap string Credential) :
  Forall (fun authMap => processed fs authMap) authList ->
  exists creds, providerSetToCredentials_loop lib fs authList acc = Done creds.
Proof.
  intros Hall. revert acc.
  induction Hall as [|b rest [hc Hstep] _ IH]; intros acc; [now exists acc|].
  cbn [providerSetToCredentials_loop]. rewrite Hstep. cbn [mbind Run_bind].
  apply IH.
Qed.

(** X5. The keys of the table [providerSetToCredentials] returns are
    exactly the hostnames of the addresses of the blocks; none of them
    holds a slash. *)
Theorem credential_table_keys (fs : FS) (authList : list (gmap string any))
    (creds : gmap string Credential) :
  providerSetToCredentials lib fs authList = Done creds ->
  forall hostname,
    (is_Some (creds !! hostname) <->
     exists authMap address,
       authMap ∈ authList
       /\ authMap !! "address" = Some (AnyString address)
       /\ convertToHostname address = hostname)
    /\ (is_Some (creds !! hostname) -> IndexByte hostname "/" < 0).
Proof.
  intros Hcreds hostname.
  assert (Hkeys : is_Some (creds !! hostname) ->
            exists authMap address,
              authMap ∈ authList
              /\ authMap !! "address" = Some (AnyString address)
              /\ convertToHostname address = hostname).
  { intros Hin.
    destruct (providerSetToCredentials_loop_keys lib fs authList ∅ creds
                hostname Hcreds Hin) as [[? Hempty]|Hblock]; [|exact Hblock].
    rewrite lookup_empty in Hempty. discriminate. }
  split; [split; [exact Hkeys|]|].
  - intros (authMap & address & Hmem & Haddr & <-).
    apply list_elem_of_split in Hmem as (l1 & l2 & ->).
    unfold providerSetToCredentials in Hcreds.
    rewrite providerSetToCredentials_loop_app in Hcreds.
    destruct (providerSetToCredentials_loop lib fs l1 ∅) as [creds1| |];
      [|discriminate..].
    cbn [mbind Run_bind providerSetToCredentials_loop] in Hcreds.
    destruct (registryAuthCredential lib fs authMap) as [[hn cred]| |] eqn:Hstep;
      [|discriminate..].
    cbn [mbind Run_bind] in Hcreds.
    apply (providerSetToCredentials_loop_keeps _ _ _ _ _ Hcreds). simpl.
    destruct (registryAuthCredential_hostname lib _ _ _ _ Hstep)
      as (address' & Haddr' & ->).
    rewrite Haddr in Haddr'. injection Haddr' as <-.
    rewrite lookup_insert_eq. eauto.
  - intros Hin. destruct (Hkeys Hin) as (_ & address & _ & _ & <-).
    apply convertToHostname_no_slash.
Qed.

(** The entry of a hostname is the credential of the last block that
    names it. *)
Lemma last_block_wins (fs : FS)
    (before after : list (gmap string any)) (authMap : gmap string any)
    (creds : gmap string Credential) (hostname : string) (cred : Credential) :
  providerSetToCredentials lib fs (before ++ authMap :: after)%list = Done creds ->
  registryAuthCredential lib fs authMap = Done (hostname, cred) ->
  (forall later address,
     later ∈ after ->
     later !! "address" = Some (AnyString address) ->
     convertToHostname address <> hostname) ->
  creds !! hostname = Some cred.
Proof.
  unfold providerSetToCredentials. rewrite providerSetToCredentials_loop_app.
  destruct (providerSetToCredentials_loop lib fs before ∅) as [creds1| |];
    [|discriminate..].
  cbn [mbind Run_bind providerSetToCredentials_loop]. intros Hcreds Hstep.
  rewrite Hstep in Hcreds. cbn [mbind Run_bind] in Hcreds. intros Hlast.
  rewrite (providerSetToCredentials_loop_frame fs after _ creds hostname Hcreds Hlast).
  simpl. apply lookup_insert_eq.
Qed.

(** X6. When several blocks name the same hostname the last one wins:
    the table holds, for a hostname, the credential of the last block
    whose address has that hostname. *)
Theorem credential_table_last_wins (fs : FS)
    (before after : list (gmap string any)) (authMap : gmap string any)
    (creds : gmap string Credential) (hostname : string) (cred : Credential) :
  providerSetToCredentials lib fs (before ++ authMap :: after)%list = Done creds ->
  registryAuthCredential lib fs authMap = Done (hostname, cred) ->
  (forall later address,
     later ∈ after ->
     later !! "address" = Some (AnyString address) ->
     convertToHostname address <> hostname) ->
  creds !! hostname = Some cred.
Proof. apply last_block_wins. Qed.

(** X7. [providerSetToCredentials] has no partial result: it returns a
    table exactly when every block is processed, and otherwise ends like
    the first block that is not, with that block's error or panic,
    whatever the blocks after it hold. *)
Theorem credential_table_all_or_nothing (fs : FS)
    (authList : list (gmap string any)) :
  ((exists creds, providerSetToCredentials lib fs authList = Done creds) <->
   Forall (fun authMap => processed fs authMap) authList)
  /\ (forall before authMap after,
        authList = (before ++ authMap :: after)%list ->
        Forall (fun earlier => processed fs earlier) before ->
        (forall e,
           registryAuthCredential lib fs authMap = Fail e ->
           providerSetToCredentials lib fs authList = Fail e)
        /\ (registryAuthCredential lib fs authMap = Panic ->
            providerSetToCredentials lib fs authList = Panic)).
Proof.
  split.
  - split.
    + intros [creds Hcreds].
      exact (providerSetToCredentials_loop_all fs authList ∅ creds Hcreds).
    + apply providerSetToCredentials_loop_total.
  - intros before authMap after -> Hbefore.
    destruct (providerSetToCredentials_loop_total fs before ∅ Hbefore)
      as [creds1 Hcreds1].
    unfold providerSetToCredentials.
    rewrite providerSetToCredentials_loop_app, Hcreds1.
    cbn [mbind Run_bind providerSetToCredentials_loop].
    split; [intros e ->|intros ->]; reflexivity.
Qed.

(** X8. Attributes a block lacks: without a string [address] the
    iteration panics; [username], [config_file_content] and [config_file]
    that are missing, not strings or empty are skipped, and a block with
    none of them stores the empty credential without consulting the
    libraries or the disk; a non-empty [username] without a string
    [password] panics. *)
Theorem registry_auth_missing_attributes (fs : FS) (authMap : gmap string any) :
  let no_text (key : string) :=
    forall s, authMap !! key = Some (AnyString s) -> s = "" in
  ((forall address, authMap !! "address" <> Some (AnyString address)) ->
   registryAuthCredential lib fs authMap = Panic)
  /\ (forall address,
        authMap !! "address" = Some (AnyString address) ->
        no_text "username" -> no_text "config_file_content" ->
        no_text "config_file" ->
        registryAuthCredential lib fs authMap
          = Done (convertToHostname address, EmptyCredential))
  /\ (forall address username,
        authMap !! "address" = Some (AnyString address) ->
        authMap !! "username" = Some (AnyString username) ->
        username <> "" ->
        (forall password, authMap !! "password" <> Some (AnyString password)) ->
        registryAuthCredential lib fs authMap = Panic).
Proof.
  intros no_text.
  assert (Hskip : forall key,
            no_text key ->
            let '(s, ok) := assertStringOk (authMap !! key) in
            ok && negb (s =? "")%string = false).
  { intros key Hkey. unfold assertStringOk.
    destruct (authMap !! key) as [[s|]|] eqn:Hlookup; try reflexivity.
    rewrite (Hkey s Hlookup). reflexivity. }
  unfold registryAuthCredential. split; [|split].
  - intros Hnone. destruct (authMap !! "address") as [[address|]|];
      [exfalso; exact (Hnone address eq_refl)|reflexivity..].
  - intros address -> Hu Hc Hf. cbn [assertString mbind Run_bind].
    pose proof (Hskip _ Hu) as Hu'. pose proof (Hskip _ Hc) as Hc'.
    pose proof (Hskip _ Hf) as Hf'.
    destruct (assertStringOk (authMap !! "username")) as [u ok1]. rewrite Hu'.
    destruct (assertStringOk (authMap !! "config_file_content")) as [t ok2].
    rewrite Hc'.
    destruct (assertStringOk (authMap !! "config_file")) as [f ok3].
    rewrite Hf'. reflexivity.
  - intros address username -> -> Hne Hnone.
    cbn [assertString assertStringOk mbind Run_bind andb].
    destruct (String.eqb_spec username ""); [contradiction|]. simpl.
    destruct (authMap !! "password") as [[password|]|];
      [exfalso; exact (Hnone password eq_refl)|reflexivity..].
Qed.

(** X9. The provider [configure] returns answers every credential
    request without error: an address, with or without scheme and path,
    gets the credential of the last block whose address has the same
    hostname, and the empty credential when no block has it; without any
    block every request gets the empty credential. *)
Theorem configure_credentials (version : string) (fs : FS)
    (registry_auth : list (gmap string any)) (c : clients) :
  configure lib version fs registry_auth = Done (Ok c) ->
  Provider2.version c = version
  /\ UserAgent (client c) = "terraform-provider-oras/" +:+ version
  /\ (forall before authMap after hostname cred s,
        registry_auth = (before ++ authMap :: after)%list ->
        registryAuthCredential lib fs authMap = Done (hostname, cred) ->
        (forall later address,
           later ∈ after ->
           later !! "address" = Some (AnyString address) ->
           convertToHostname address <> hostname) ->
        convertToHostname s = hostname ->
        ClientCredential (client c) s = Ok cred)
  /\ (forall s,
        (forall authMap address,
           authMap ∈ registry_auth ->
           authMap !! "address" = Some (AnyString address) ->
           convertToHostname address <> convertToHostname s) ->
        ClientCredential (client c) s = Ok EmptyCredential)
  /\ (forall s, is_ok (ClientCredential (client c) s) = true).
Proof.
  unfold configure.
  assert (Hcreds : forall creds,
            (registry_auth = [] /\ creds = ∅
             \/ providerSetToCredentials lib fs registry_auth = Done creds) ->
            providerSetToCredentials lib fs registry_auth = Done creds).
  { intros creds [[-> ->]|Hdone]; [reflexivity|exact Hdone]. }
  destruct (match registry_auth with
            | [] => Done (Ok ∅)
            | _ :: _ =>
                match providerSetToCredentials lib fs registry_auth with
                | Done configureCreds => Done (Ok configureCreds)
                | Fail err =>
                    Done (Err ("Error loading registry auth config: " +:+ err))
                | Panic => Panic
                end
            end) as [[creds|msg]| |] eqn:Hload; [|discriminate..].
  assert (Htable : providerSetToCredentials lib fs registry_auth = Done creds).
  { apply Hcreds. destruct registry_auth as [|b rest].
    - left. split; [reflexivity|]. now injection Hload as <-.
    - right.
      destruct (providerSetToCredentials lib fs (b :: rest)) as [table| |];
        [|discriminate..].
      now injection Hload as <-. }
  cbn [mbind Run_bind authClient]. intros [= <-]. cbn [Provider2.version client].
  split; [reflexivity|]. split; [reflexivity|]. split; [|split].
  - intros before authMap after hostname cred s -> Hstep Hlast <-.
    cbn [ClientCredential].
    now rewrite (last_block_wins fs before after authMap creds
                   _ cred Htable Hstep Hlast).
  - intros s Hnone. cbn [ClientCredential].
    destruct (creds !! convertToHostname s) as [cred|] eqn:Hlookup;
      [|reflexivity].
    exfalso.
    destruct (providerSetToCredentials_loop_keys lib fs registry_auth ∅ creds
                (convertToHostname s) Htable ltac:(eauto))
      as [[? Hempty]|(authMap & address & Hmem & Haddr & Hhost)].
    + rewrite lookup_empty in Hempty. discriminate.
    + exact (Hnone authMap address Hmem Haddr Hhost).
  - intros s. cbn [ClientCredential].
    now destruct (creds !! convertToHostname s).
Qed.

(** X10. [configure] succeeds exactly when every block is processed.
    When a block fails after blocks that were processed, [configure]
    reports that block's error behind the text
    [Error loading registry auth config: ], whatever the blocks after it
    hold; when such a block panics, so does [configure].  Building the
    client never fails, so no other error is ever reported. *)
Theorem configure_failure (version : string) (fs : FS)
    (registry_auth : list (gmap string any)) :
  ((exists c, configure lib version fs registry_auth = Done (Ok c)) <->
   Forall (fun authMap => processed fs authMap) registry_auth)
  /\ (forall before authMap after,
        registry_auth = (before ++ authMap :: after)%list ->
        Forall (fun earlier => processed fs earlier) before ->
        (forall e,
           registryAuthCredential lib fs authMap = Fail e ->
           configure lib version fs registry_auth
             = Done (Err ("Error loading registry auth config: " +:+ e)))
        /\ (registryAuthCredential lib fs authMap = Panic ->
            configure lib version fs registry_auth = Panic))
  /\ (forall msg,
        configure lib version fs registry_auth = Done (Err msg) ->
        exists err,
          providerSetToCredentials lib fs registry_auth = Fail err
          /\ msg = "Error loading registry auth config: " +:+ err).
Proof.
  assert (Hshape : forall outcome,
            providerSetToCredentials lib fs registry_auth = outcome ->
            configure lib version fs registry_auth
            = match outcome with
              | Done creds =>
                  Done (Ok {| Provider2.version := version;
                              client :=
                                {| ClientTransport := transport;
                                   UserAgent := "terraform-provider-oras/" +:+ version;
                                   ClientCredential := fun s =>
                                     match creds !! convertToHostname s with
                                     | Some cred => Ok cred
                                     | None => Ok EmptyCredential
                                     end |} |})
              | Fail err =>
                  Done (Err ("Error loading registry auth config: " +:+ err))
              | Panic => Panic
              end).
  { intros outcome <-. unfold configure. destruct registry_auth as [|b rest].
    - reflexivity.
    - destruct (providerSetToCredentials lib fs (b :: rest)); reflexivity. }
  split; [|split].
  - split.
    + intros [c Hc].
      destruct (providerSetToCredentials lib fs registry_auth) as [creds|err|]
        eqn:Htable; rewrite (Hshape _ eq_refl) in Hc; try discriminate.
      exact (providerSetToCredentials_loop_all fs registry_auth ∅ creds Htable).
    + intros Hall.
      destruct (providerSetToCredentials_loop_total fs registry_auth ∅ Hall)
        as [creds Htable].
      rewrite (Hshape _ Htable). eauto.
  - intros before authMap after -> Hbefore.
    destruct (providerSetToCredentials_loop_total fs before ∅ Hbefore)
      as [creds1 Hcreds1].
    assert (Htable : providerSetToCredentials lib fs (before ++ authMap :: after)
                     = (hc ← registryAuthCredential lib fs authMap;
                        providerSetToCredentials_loop lib fs after
                          (<[hc.1 := hc.2]> creds1))).
    { unfold providerSetToCredentials.
      now rewrite providerSetToCredentials_loop_app, Hcreds1. }
    split.
    + intros e Hfail. rewrite Hfail in Htable. now rewrite (Hshape _ Htable).
    + intros Hpanic. rewrite Hpanic in Htable. now rewrite (Hshape _ Htable).
  - intros msg Hmsg.
    destruct (providerSetToCredentials lib fs registry_auth) as [creds|err|]
      eqn:Htable; rewrite (Hshape _ eq_refl) in Hmsg; try discriminate.
    injection Hmsg as <-. eauto.
Qed.

End CredentialTable.

Lemma credential_table_keys_witness :
  exists creds,
    Provider2.providerSetToCredentials ConfigDemo.lib ConfigDemo.disk
      [ConfigDemo.by_password; ConfigDemo2.override] = Provider2.Done creds
    /\ is_Some (creds !! "quay.io:8181")
    /\ is_Some (creds !! "quay.io")
    /\ creds !! "https://quay.io/v2/" = None.
Proof.
  assert (Hrun : { creds | Provider2.providerSetToCredentials ConfigDemo.lib
                             ConfigDemo.disk
                             [ConfigDemo.by_password; ConfigDemo2.override]
                           = Provider2.Done creds })
    by (eexists; vm_compute; reflexivity).
  destruct Hrun as [creds Hcreds]. exists creds. split; [exact Hcreds|].
  pose proof (credential_table_keys ConfigDemo.lib _ _ _ Hcreds) as Hkeys.
  split; [|split].
  - apply (Hkeys "quay.io:8181"). exists ConfigDemo.by_password, "quay.io:8181".
    split; [apply list_elem_of_here|]. split; reflexivity.
  - apply (Hkeys "quay.io"). exists ConfigDemo2.override, "https://quay.io/v2/".
    split; [apply list_elem_of_further, list_elem_of_here|]. split; reflexivity.
  - destruct (creds !! "https://quay.io/v2/") eqn:Hlookup; [|reflexivity].
    destruct (Hkeys "https://quay.io/v2/") as [_ Hslash].
    specialize (Hslash ltac:(eauto)). vm_compute in Hslash. discriminate.
Defined.

Lemma credential_table_last_wins_witness :
  exists creds,
    Provider2.providerSetToCredentials ConfigDemo.lib ConfigDemo.disk
      [ConfigDemo.no_source; ConfigDemo2.override] = Provider2.Done creds
    /\ creds !! "quay.io"
         = Some {| Username := "bob"; Password := "builder";
                   RefreshToken := ""; AccessToken := "" |}.
Proof.
  assert (Hrun : { creds | Provider2.providerSetToCredentials ConfigDemo.lib
                             ConfigDemo.disk
                             [ConfigDemo.no_source; ConfigDemo2.override]
                           = Provider2.Done creds })
    by (eexists; vm_compute; reflexivity).
  destruct Hrun as [creds Hcreds]. exists creds. split; [exact Hcreds|].
  apply (credential_table_last_wins ConfigDemo.lib ConfigDemo.disk
           [ConfigDemo.no_source] [] ConfigDemo2.override creds "quay.io" _ Hcreds).
  - vm_compute. reflexivity.
  - intros later address Hmem. inversion Hmem.
Defined.

Lemma credential_table_all_or_nothing_witness :
  Provider2.providerSetToCredentials ConfigDemo.lib ConfigDemo.disk
    [ConfigDemo.by_password; ConfigDemo2.broken; ConfigDemo2.no_address]
  = Provider2.Fail
      "could not open config file from filePath: /missing.json. Error: open /missing.json: no such file or directory"
  /\ Provider2.providerSetToCredentials ConfigDemo.lib ConfigDemo.disk
       [ConfigDemo.by_password; ConfigDemo2.no_address; ConfigDemo2.broken]
     = Provider2.Panic.
Proof.
  assert (Hfirst : Forall (fun b => exists hc,
                     Provider2.registryAuthCredential ConfigDemo.lib
                       ConfigDemo.disk b = Provider2.Done hc)
                     [ConfigDemo.by_password]).
  { constructor; [|constructor]. eexists. vm_compute. reflexivity. }
  split.
  - destruct (credential_table_all_or_nothing ConfigDemo.lib ConfigDemo.disk
                [ConfigDemo.by_password; ConfigDemo2.broken; ConfigDemo2.no_address])
      as [_ Hends].
    destruct (Hends [ConfigDemo.by_password] ConfigDemo2.broken
                [ConfigDemo2.no_address] eq_refl Hfirst) as [Hfail _].
    apply Hfail. vm_compute. reflexivity.
  - destruct (credential_table_all_or_nothing ConfigDemo.lib ConfigDemo.disk
                [ConfigDemo.by_password; ConfigDemo2.no_address; ConfigDemo2.broken])
      as [_ Hends].
    destruct (Hends [ConfigDemo.by_password] ConfigDemo2.no_address
                [ConfigDemo2.broken] eq_refl Hfirst) as [_ Hpanic].
    apply Hpanic. vm_compute. reflexivity.
Defined.

Lemma registry_auth_missing_attributes_witness :
  Provider2.registryAuthCredential ConfigDemo.lib ConfigDemo.disk
    ConfigDemo2.only_address = Provider2.Done ("ghcr.io", EmptyCredential)
  /\ Provider2.registryAuthCredential ConfigDemo.lib ConfigDemo.disk
       ConfigDemo2.no_address = Provider2.Panic.
Proof.
  destruct (registry_auth_missing_attributes ConfigDemo.lib ConfigDemo.disk
              ConfigDemo2.only_address) as (_ & Hskip & _).
  destruct (registry_auth_missing_attributes ConfigDemo.lib ConfigDemo.disk
              ConfigDemo2.no_address) as (Hpanic & _).
  split.
  - apply (Hskip "ghcr.io/acme"); [reflexivity|intros s Hs; discriminate Hs..].
  - apply Hpanic. intros address Haddr. discriminate Haddr.
Defined.

Lemma configure_credentials_witness :
  exists c,
    Provider2.configure ConfigDemo.lib "1.0.0" ConfigDemo.disk
      [ConfigDemo.no_source; ConfigDemo2.override] = Provider2.Done (Ok c)
    /\ ClientCredential (Provider2.client c) "quay.io/acme/app"
         = Ok {| Username := "bob"; Password := "builder";
                 RefreshToken := ""; AccessToken := "" |}
    /\ ClientCredential (Provider2.client c) "ghcr.io" = Ok EmptyCredential.
Proof.
  assert (Hrun : { c | Provider2.configure ConfigDemo.lib "1.0.0" ConfigDemo.disk
                         [ConfigDemo.no_source; ConfigDemo2.override]
                       = Provider2.Done (Ok c) })
    by (eexists; vm_compute; reflexivity).
  destruct Hrun as [c Hc]. exists c. split; [exact Hc|].
  destruct (configure_credentials ConfigDemo.lib "1.0.0" ConfigDemo.disk _ c Hc)
    as (_ & _ & Hlast & Hnone & _).
  split.
  - apply (Hlast [ConfigDemo.no_source] ConfigDemo2.override [] "quay.io").
    + reflexivity.
    + vm_compute. reflexivity.
    + intros later address Hmem. inversion Hmem.
    + reflexivity.
  - apply Hnone. intros authMap address Hmem Haddr.
    apply elem_of_cons in Hmem as [->|Hmem].
    { vm_compute in Haddr. injection Haddr as <-. vm_compute. discriminate. }
    apply list_elem_of_singleton in Hmem as ->.
    vm_compute in Haddr. injection Haddr as <-. vm_compute. discriminate.
Defined.

Lemma configure_failure_witness :
  Provider2.configure ConfigDemo.lib "1.0.0" ConfigDemo.disk
    [ConfigDemo.by_password; ConfigDemo2.broken; ConfigDemo2.no_address]
  = Provider2.Done
      (Err "Error loading registry auth config: could not open config file from filePath: /missing.json. Error: open /missing.json: no such file or directory").
Proof.
  destruct (configure_failure ConfigDemo.lib "1.0.0" ConfigDemo.disk
              [ConfigDemo.by_password; ConfigDemo2.broken; ConfigDemo2.no_address])
    as (_ & Hends & _).
  assert (Hfirst : Forall (fun b => exists hc,
                     Provider2.registryAuthCredential ConfigDemo.lib
                       ConfigDemo.disk b = Provider2.Done hc)
                     [ConfigDemo.by_password]).
  { constructor; [|constructor]. eexists. vm_compute. reflexivity. }
  destruct (Hends [ConfigDemo.by_password] ConfigDemo2.broken
              [ConfigDemo2.no_address] eq_refl Hfirst) as [Hfail _].
  apply Hfail. vm_compute. reflexivity.
Defined.

(** ** What the reads leave behind *)

Lemma Hex_EncodeToString_length (src : list byte) :
  String.length (Hex.EncodeToString src) = (2 * length src)%nat.
Proof.
  induction src as [|v rest IH]; [reflexivity|].
  cbn [Hex.EncodeToString String.length length]. rewrite IH. lia.
Qed.

Section ReadEffects.
Context {C : Type} `{Clients C}.
Context (h : Host) (opts : C).

(** X11. After a successful read of [oras_artifact_file] the attribute
    [content] is the text of the file found under the joined path once the
    copy had returned, the id is the hexadecimal text of the SHA-1 sum of
    those bytes, two characters per byte of the sum, and no attribute
    other than [content] and [content_base64] has changed. *)
Theorem file_read_outputs (d d' : ResourceData) (w w' : World) :
  dataSourceOrasArtifactFileRead h opts d w = (([], d'), w') ->
  exists repo src temp w1 dst desc fs3 content,
    NewRepository h opts (rd_Get d "name") = Ok repo
    /\ CachedTarget h opts (RemoteTarget repo) = Ok src
    /\ os_MkdirTemp h "" "terraform-oras-provider-" w = (Ok temp, w1)
    /\ file_New h temp = Ok dst
    /\ oras_Copy h src (Reference_ (RepoReference repo)) dst
         (Reference_ (RepoReference repo)) (fs w1) = (Ok desc, fs3)
    /\ files fs3 !! filepath_Join h temp (rd_Get d "filename") = Some content
    /\ attrs d' !! "content" = Some (string_of_bytes content)
    /\ Id d' = Hex.EncodeToString (sha1_Sum h content)
    /\ String.length (Id d') = (2 * length (sha1_Sum h content))%nat
    /\ (forall key, key <> "content" -> key <> "content_base64" ->
          attrs d' !! key = attrs d !! key).
Proof.
  intros Hrun.
  destruct (FileRead_inv h opts d d' w w' [] Hrun)
    as [(_ & _ & Hd)|(repo & src & temp & w1 & w2 & middle & Hrepo & Hsrc
                      & Htemp & _ & _ & Hshape)]; [contradiction|].
  destruct Hshape as [(_ & _ & Hd)|(dst & r & w3 & Hdst & Hcopy & Hmid)];
    [contradiction|].
  destruct Hmid as [(_ & _ & _ & e & _ & Hd)|(_ & Hok & _ & Hfile)];
    [discriminate|].
  destruct r as [desc|e]; [|discriminate].
  destruct (Copy_calls h _ _ _ _ _ _ Hcopy) as [Horas _].
  destruct (files (fs w3) !! filepath_Join h temp (rd_Get d "filename"))
    as [content|] eqn:Hcontent; [|destruct Hfile as [_ Hd]; discriminate].
  destruct Hfile as (_ & Hid & Hattrs).
  exists repo, src, temp, w1, dst, desc, (fs w3), content.
  do 5 (split; [assumption|]). split; [exact Hcontent|].
  rewrite Hattrs, Hid. split.
  { rewrite lookup_insert_ne by discriminate. apply lookup_insert_eq. }
  split; [reflexivity|]. split; [apply Hex_EncodeToString_length|].
  intros key Hc Hc64. now rewrite !lookup_insert_ne by congruence.
Qed.

(** The two ways a read of [oras_artifact] can go. *)
Lemma ArtifactRead_inv (d d' : ResourceData) (w w' : World)
    (diags : Diagnostics) :
  dataSourceOrasArtifactRead h opts d w = ((diags, d'), w') ->
  (w' = w /\ d' = d /\ diags <> [])
  \/ exists repo src dst r,
       NewRepository h opts (rd_Get d "name") = Ok repo
       /\ CachedTarget h opts (RemoteTarget repo) = Ok src
       /\ file_New h (rd_Get d "output_path") = Ok dst
       /\ oras_Copy h src (Reference_ (RepoReference repo)) dst
            (Reference_ (RepoReference repo)) (fs w) = (r, fs w')
       /\ calls w' = (calls w ++ [CallCopy src (Reference_ (RepoReference repo)) dst
                                    (Reference_ (RepoReference repo))])%list
       /\ match r with
          | Ok desc => diags = [] /\ Id d' = Digest_String (Digest_ desc)
          | Err e => diags = diag_FromErr e /\ d' = d
          end.
Proof.
  unfold dataSourceOrasArtifactRead.
  destruct (NewRepository h opts (rd_Get d "name")) as [repo|e] eqn:Hrepo.
  2:{ intros [= <- <- <-]. left. repeat split. discriminate. }
  destruct (CachedTarget h opts (RemoteTarget repo)) as [src|e] eqn:Hsrc.
  2:{ intros [= <- <- <-]. left. repeat split. discriminate. }
  destruct (file_New h (rd_Get d "output_path")) as [dst|e] eqn:Hdst.
  2:{ intros [= <- <- <-]. left. repeat split. discriminate. }
  destruct (Copy h src _ dst _ w) as [r w1] eqn:Hcopy.
  destruct (Copy_calls h _ _ _ _ _ _ Hcopy) as [Horas Hcalls].
  intros Hrun. right. exists repo, src, dst, r.
  assert (Hw : w' = w1) by (destruct r; now injection Hrun).
  subst w'. do 3 (split; [first [reflexivity|eassumption]|]).
  split; [exact Horas|]. split; [exact Hcalls|].
  destruct r as [desc|e]; injection Hrun as <- <-; split; reflexivity.
Qed.



End ReadEffects.

(** ** Where a copy reads from *)

Section CopySource.
Context (h : Host) (c : Provider2.clients).

Lemma CachedTarget_shape (src t : Target) :
  Provider2.CachedTarget h c src = Ok t ->
  let root := os_Getenv h "ORAS_CACHE" in
  (root = "" -> t = src)
  /\ (root <> "" -> t = CacheTarget src {| store_root := root |}).
Proof.
  intros Ht. cbv zeta. unfold Provider2.CachedTarget, oci_New in Ht.
  cbv zeta in Ht. set (root := os_Getenv h "ORAS_CACHE") in *.
  destruct (String.eqb_spec root "") as [Hroot|Hroot]; simpl in Ht.
  - injection Ht as <-. split; [reflexivity|contradiction].
  - destruct (oci_open h root); [discriminate|]. injection Ht as <-.
    split; [contradiction|reflexivity].
Qed.

(** X13. With the later revision of the provider, every copy either
    read makes takes its content from the repository of the parsed
    reference, which carries the provider's one auth client and has plain
    HTTP off: from the repository itself when [ORAS_CACHE] is empty, and
    through the cache over the store opened at [ORAS_CACHE] otherwise.
    Source and destination reference are the reference part (tag or
    digest) of the parsed name. *)
Theorem copy_source (d : ResourceData) (w w' : World)
    (res : Diagnostics * ResourceData) (src : Target) (ref ref' : string)
    (dst : FileStore) :
  dataSourceOrasArtifactRead h c d w = (res, w')
  \/ dataSourceOrasArtifactFileRead h c d w = (res, w') ->
  CallCopy src ref dst ref' ∈ calls w' ->
  CallCopy src ref dst ref' ∉ calls w ->
  exists parsed,
    remote_ParseReference h (rd_Get d "name") = Ok parsed
    /\ ref = Reference_ parsed /\ ref' = Reference_ parsed
    /\ let repo := {| RepoReference := parsed; PlainHTTP := false;
                      Client := Some (Provider2.client c) |} in
       let root := os_Getenv h "ORAS_CACHE" in
       (root = "" -> src = RemoteTarget repo)
       /\ (root <> "" ->
           src = CacheTarget (RemoteTarget repo) {| store_root := root |}).
Proof.
  assert (Hrepo : forall repo src0,
            NewRepository h c (rd_Get d "name") = Ok repo ->
            CachedTarget h c (RemoteTarget repo) = Ok src0 ->
            (exists dst0,
               CallCopy src ref dst ref'
               = CallCopy src0 (Reference_ (RepoReference repo)) dst0
                   (Reference_ (RepoReference repo))) ->
            exists parsed,
              remote_ParseReference h (rd_Get d "name") = Ok parsed
              /\ ref = Reference_ parsed /\ ref' = Reference_ parsed
              /\ let repo := {| RepoReference := parsed; PlainHTTP := false;
                                Client := Some (Provider2.client c) |} in
                 let root := os_Getenv h "ORAS_CACHE" in
                 (root = "" -> src = RemoteTarget repo)
                 /\ (root <> "" ->
                     src = CacheTarget (RemoteTarget repo) {| store_root := root |})).
  { intros repo src0 Hnew Hcached Hcall.
    assert (Heq : src = src0 /\ ref = Reference_ (RepoReference repo)
                  /\ ref' = Reference_ (RepoReference repo)).
    { destruct Hcall as [dst0 Hcall]. injection Hcall as -> -> _ ->.
      repeat split. }
    destruct Heq as (-> & -> & ->).
    cbn [NewRepository Clients_Provider2] in Hnew.
    cbn [CachedTarget Clients_Provider2] in Hcached.
    unfold Provider2.NewRepository, remote_NewRepository in Hnew.
    destruct (remote_ParseReference h (rd_Get d "name")) as [parsed|e];
      [|discriminate].
    injection Hnew as <-. exists parsed. cbn [RepoReference PlainHTTP Client].
    do 3 (split; [reflexivity|]).
    exact (CachedTarget_shape _ _ Hcached). }
  intros [Hrun|Hrun] Hin Hnew; destruct res as [diags d'].
  - destruct (ArtifactRead_inv h c d d' w w' diags Hrun)
      as [(-> & _)|(repo & src0 & dst0 & r & Hnewrepo & Hcached & _ & _
                    & Hcalls & _)]; [contradiction|].
    rewrite Hcalls in Hin. apply elem_of_app in Hin as [Hin|Hin];
      [contradiction|].
    apply list_elem_of_singleton in Hin.
    apply (Hrepo repo src0 Hnewrepo Hcached). eauto.
  - destruct (FileRead_inv h c d d' w w' diags Hrun)
      as [(-> & _)|(repo & src0 & temp & w1 & w2 & middle & Hnewrepo & Hcached
                    & Htemp & Hcalls & -> & Hshape)]; [contradiction|].
    destruct (os_MkdirTemp_ok h _ _ _ _ _ Htemp) as (_ & _ & Hc1).
    destruct (os_RemoveAll_gone temp w2) as (_ & _ & Hc2).
    rewrite Hc2, Hcalls, Hc1 in Hin.
    repeat (apply elem_of_app in Hin as [Hin|Hin]); try contradiction.
    + apply list_elem_of_singleton in Hin. discriminate Hin.
    + apply (Hrepo repo src0 Hnewrepo Hcached).
      destruct Hshape as [(-> & _)|(dst0 & r & w3 & _ & _ & Hmid)];
        [inversion Hin|].
      destruct Hmid as [(-> & _)|(-> & _)].
      * apply list_elem_of_singleton in Hin. eauto.
      * apply elem_of_cons in Hin as [Hin|Hin]; [eauto|].
        apply list_elem_of_singleton in Hin. discriminate Hin.
    + apply list_elem_of_singleton in Hin. discriminate Hin.
Qed.

End CopySource.

Lemma file_read_outputs_witness :
  let run := dataSourceOrasArtifactFileRead Demo.host Demo.clients2
               (Demo.file_request "hello.txt") Demo.world in
  run.1.1 = []
  /\ Id run.1.2 = "00"
  /\ attrs run.1.2 !! "content" = Some "hi"
  /\ attrs run.1.2 !! "name" = Some "ghcr.io/acme/app:v1"
  /\ attrs run.1.2 !! "filename" = Some "hello.txt".
Proof.
  intros run.
  assert (Hrun : run = (([], run.1.2), run.2)) by reflexivity.
  destruct (file_read_outputs Demo.host Demo.clients2 _ _ _ _ Hrun)
    as (repo & src & temp & w1 & dst & desc & fs3 & content & _ & _ & _ & _
        & _ & _ & _ & _ & _ & Hframe).
  split; [reflexivity|]. split; [reflexivity|]. split; [reflexivity|].
  split; [rewrite Hframe by discriminate|rewrite Hframe by discriminate];
    reflexivity.
Defined.


Lemma copy_source_witness :
  let run := dataSourceOrasArtifactRead DemoLocal.host Demo.clients2
               DemoLocal.request Demo.world in
  calls run.2 =
    [CallCopy
       (CacheTarget
          (RemoteTarget {| RepoReference := DemoLocal.reference;
                           PlainHTTP := false;
                           Client := Some (Provider2.client Demo.clients2) |})
          {| store_root := "/var/cache/oras" |})
       "v1" {| workingDir := "/out" |} "v1"].
Proof.
  intros run.
  assert (Hrun : run = (run.1, run.2)) by reflexivity.
  assert (Hcalls : exists src ref dst ref', calls run.2 = [CallCopy src ref dst ref']).
  { eexists _, _, _, _. reflexivity. }
  destruct Hcalls as (src & ref & dst & ref' & Hcalls).
  destruct (copy_source DemoLocal.host Demo.clients2 DemoLocal.request
              Demo.world run.2 run.1 src ref ref' dst (or_introl Hrun))
    as (parsed & Hparsed & -> & -> & _ & Hcached).
  - rewrite Hcalls. apply list_elem_of_here.
  - intros Hin. inversion Hin.
  - injection Hparsed as <-.
    rewrite (Hcached ltac:(discriminate)) in Hcalls. rewrite Hcalls.
    f_equal. f_equal.
    assert (Hdst : exists s r r', calls run.2
                     = [CallCopy s r {| workingDir := "/out" |} r'])
      by (eexists _, _, _; reflexivity).
    destruct Hdst as (s & r & r' & Hdst). rewrite Hdst in Hcalls.
    now injection Hcalls.
Defined.

